(** * MPR-Viewer: the slice synchronisation logic of [BrainViewer] (src/Code.py)

    A shallow embedding of the event handlers of [BrainViewer]: the three
    slice variables (the cursor), their text entries, the brightness and
    contrast variables, the crosshair and hover lines and the image plots.
    Python floats and NumPy float64 values are Rocq's primitive binary64
    floats; Python integers are [Z]; a Python string is the list of its
    code points; Tk variables are record fields; a handler is a state
    transformer that may raise after having mutated the viewer. *)

From Stdlib Require Import ZArith Lia Bool List String Ascii DecimalString Floats.
Import ListNotations.

Open Scope Z_scope.

(** ** Python and NumPy scalars *)

Module Py.

(** Python exceptions the handlers can meet. *)
Inductive exn : Type :=
| ValueError
| OverflowError
| IndexError
| TypeError
| AttributeError
| FileError.

(** [float(n)] for a Python integer: the nearest binary64, ties to even. *)
Definition float_of_int (n : Z) : float :=
  SF2Prim (binary_normalize prec emax n 0 false).

(** [int(f)] for a float: truncation towards zero; [nan] raises
    [ValueError] and an infinity [OverflowError]. *)
Definition int_of_float (f : float) : exn + Z :=
  match Prim2SF f with
  | S754_zero _ => inr 0
  | S754_finite s m e =>
      let mag := match e with
                 | Z0 => Zpos m
                 | Zpos _ => Zpos m * 2 ^ e
                 | Zneg p => Zpos m / 2 ^ Zpos p
                 end in
      inr (if s then - mag else mag)
  | S754_infinity _ => inl OverflowError
  | S754_nan => inl ValueError
  end.

(** A Python [str]: the sequence of its code points. *)
Definition text : Type := list N.

(** The text of a literal written in ASCII. *)
Fixpoint codes (s : string) : text :=
  match s with
  | EmptyString => []
  | String c r => N_of_ascii c :: codes r
  end.

(** [str(n)] for an integer. *)
Definition str (n : Z) : text := codes (NilZero.string_of_int (Z.to_int n)).

(** [Py_ISSPACE]: the white space of the C locale, which [PyLong_FromString]
    skips before the sign and after the digits. *)
Definition is_space (c : N) : bool :=
  (((9 <=? c) && (c <=? 13)) || (c =? 32))%N.

(** [Py_UNICODE_ISSPACE] on the code points from 127 on. *)
Definition unicode_space (c : N) : bool :=
  ((c =? 0x85) || (c =? 0xa0) || (c =? 0x1680) ||
   ((0x2000 <=? c) && (c <=? 0x200a)) ||
   (c =? 0x2028) || (c =? 0x2029) || (c =? 0x202f) || (c =? 0x205f) ||
   (c =? 0x3000))%N.

(** The digit zero of every script that has decimal digits (general
    category Nd of Unicode 14); the nine code points after each are its
    digits one to nine. *)
Definition decimal_zeros : list N :=
  [ 0x30; 0x660; 0x6f0; 0x7c0; 0x966; 0x9e6; 0xa66; 0xae6; 0xb66; 0xbe6;
    0xc66; 0xce6; 0xd66; 0xde6; 0xe50; 0xed0; 0xf20; 0x1040; 0x1090;
    0x17e0; 0x1810; 0x1946; 0x19d0; 0x1a80; 0x1a90; 0x1b50; 0x1bb0;
    0x1c40; 0x1c50; 0xa620; 0xa8d0; 0xa900; 0xa9d0; 0xa9f0; 0xaa50;
    0xabf0; 0xff10; 0x104a0; 0x10d30; 0x11066; 0x110f0; 0x11136; 0x111d0;
    0x112f0; 0x11450; 0x114d0; 0x11650; 0x116c0; 0x11730; 0x118e0;
    0x11950; 0x11c50; 0x11d50; 0x11da0; 0x16a60; 0x16ac0; 0x16b50;
    0x1d7ce; 0x1d7d8; 0x1d7e2; 0x1d7ec; 0x1d7f6; 0x1e140; 0x1e2f0;
    0x1e950; 0x1fbf0 ]%N.

(** [Py_UNICODE_TODECIMAL]: the value of a decimal digit. *)
Definition to_decimal (c : N) : option N :=
  match find (fun zero => (zero <=? c) && (c <? zero + 10))%N decimal_zeros with
  | Some zero => Some (c - zero)%N
  | None => None
  end.

(** [_PyUnicode_TransformDecimalAndSpaceToASCII] on a text that is not
    ASCII: code points below 127 stay, white space becomes a space, a
    decimal digit its ASCII digit, and anything else a question mark at
    which the text ends. *)
Fixpoint transform (t : text) : text :=
  match t with
  | [] => []
  | c :: r =>
      if (c <? 127)%N then c :: transform r
      else if unicode_space c then 32%N :: transform r
      else match to_decimal c with
           | Some d => (48 + d)%N :: transform r
           | None => [63%N]
           end
  end.

(** An ASCII text is handed to the parser as it is. *)
Definition to_ascii (t : text) : text :=
  if forallb (fun c => (c <? 128)%N) t then t else transform t.

Definition digit_of (c : N) : option Z :=
  if ((48 <=? c) && (c <=? 57))%N then Some (Z.of_N c - 48) else None.

Definition is_underscore (c : N) : bool := (c =? 95)%N.

Fixpoint lstrip (t : text) : text :=
  match t with
  | c :: r => if is_space c then lstrip r else t
  | [] => t
  end.

Definition all_space (t : text) : bool := forallb is_space t.

(** The digits of a decimal literal after its first digit: digits, each
    optionally preceded by one underscore, then trailing white space.
    The result is the value and the number of digits read. *)
Fixpoint int_digits (acc : Z) (count : N) (t : text) : option (Z * N) :=
  match t with
  | [] => Some (acc, count)
  | c :: r =>
      match digit_of c with
      | Some d => int_digits (10 * acc + d) (count + 1) r
      | None =>
          if is_underscore c then
            match r with
            | c' :: r' =>
                match digit_of c' with
                | Some d => int_digits (10 * acc + d) (count + 1) r'
                | None => None
                end
            | [] => None
            end
          else if all_space t then Some (acc, count) else None
      end
  end.

(** [sys.get_int_max_str_digits()]: a literal with more digits is refused. *)
Definition max_str_digits : N := 4300.

Definition int_unsigned (t : text) : option Z :=
  match t with
  | c :: r =>
      match digit_of c with
      | Some d =>
          match int_digits d 1 r with
          | Some (v, count) => if (count <=? max_str_digits)%N then Some v else None
          | None => None
          end
      | None => None
      end
  | [] => None
  end.

(** [int(s)] for a string, base ten: [None] stands for [ValueError]. *)
Definition int_of_str (s : text) : option Z :=
  match lstrip (to_ascii s) with
  | 45%N :: r => option_map Z.opp (int_unsigned r)
  | 43%N :: r => int_unsigned r
  | t => int_unsigned t
  end.

End Py.

Module Np.

(** [np.maximum] and [np.minimum] on float64 scalars: a [nan] on the left
    is returned, otherwise the comparison decides. *)
Definition maximum (a b : float) : float :=
  if (b <=? a)%float || is_nan a then a else b.

Definition minimum (a b : float) : float :=
  if (a <=? b)%float || is_nan a then a else b.

(** [np.clip(a, lo, hi)] on a float64 scalar with Python integers as
    bounds, as the [clip] ufunc computes it: the larger of [a] and [lo],
    then the smaller of that and [hi], a [nan] passing through. *)
Definition clip (a : float) (lo hi : Z) : float :=
  let lo := Py.float_of_int lo in
  let hi := Py.float_of_int hi in
  let m := if is_nan a then a else if (lo <? a)%float then a else lo in
  if is_nan m then m else if (m <? hi)%float then m else hi.

(** A three-dimensional float64 array in C order. *)
Record ndarray : Type := mk_ndarray {
  shape : Z * Z * Z;
  voxels : list float
}.

Definition dim (d : ndarray) (i : nat) : Z :=
  let '(nx, ny, nz) := shape d in
  match i with
  | O => nx
  | S O => ny
  | _ => nz
  end.

(** Reductions [np.min] and [np.max] over all elements; an empty array
    raises [ValueError]. *)
Definition amin (d : ndarray) : Py.exn + float :=
  match voxels d with
  | [] => inl Py.ValueError
  | v :: vs => inr (fold_left minimum vs v)
  end.

Definition amax (d : ndarray) : Py.exn + float :=
  match voxels d with
  | [] => inl Py.ValueError
  | v :: vs => inr (fold_left maximum vs v)
  end.

(** An index into an axis of length [n]: negative indices count from the
    end, anything outside [-n, n) raises [IndexError]. *)
Definition index (n i : Z) : Py.exn + Z :=
  if (0 <=? i) && (i <? n) then inr i
  else if (- n <=? i) && (i <? 0) then inr (i + n)
  else inl Py.IndexError.

Definition item (d : ndarray) (x y z : Z) : float :=
  nth (Z.to_nat ((x * dim d 1 + y) * dim d 2 + z)) (voxels d) 0%float.

Definition arange (n : Z) : list Z := map Z.of_nat (seq 0 (Z.to_nat n)).

Definition array2 : Type := list (list float).

(** [data[:, :, z]], [data[x, :, :]] and [data[:, y, :]]. *)
Definition slice_z (d : ndarray) (z : Z) : Py.exn + array2 :=
  match index (dim d 2) z with
  | inl e => inl e
  | inr k => inr (map (fun x => map (fun y => item d x y k) (arange (dim d 1)))
                      (arange (dim d 0)))
  end.

Definition slice_x (d : ndarray) (x : Z) : Py.exn + array2 :=
  match index (dim d 0) x with
  | inl e => inl e
  | inr k => inr (map (fun y => map (fun z => item d k y z) (arange (dim d 2)))
                      (arange (dim d 1)))
  end.

Definition slice_y (d : ndarray) (y : Z) : Py.exn + array2 :=
  match index (dim d 1) y with
  | inl e => inl e
  | inr k => inr (map (fun x => map (fun z => item d x k z) (arange (dim d 2)))
                      (arange (dim d 0)))
  end.

(** [np.rot90] of a two-dimensional array with [cols] columns: the last
    column becomes the first row. *)
Definition rot90 (cols : Z) (m : array2) : array2 :=
  rev (map (fun j => map (fun row => nth j row 0%float) m)
           (seq 0 (Z.to_nat cols))).

(** [np.flip(m, axis=1)]. *)
Definition flip1 (m : array2) : array2 := map (@rev float) m.

End Np.

(** ** The viewer's state *)

(** The keys of the per-view dictionaries. A plane names both a view and
    the slice variable of the axis that view fixes: ['sagittal'] is [x]
    (dimension 0), ['coronal'] is [y] (dimension 1), ['axial'] is [z]
    (dimension 2). *)
Inductive plane : Type := axial | sagittal | coronal.

Definition plane_eqb (p q : plane) : bool :=
  match p, q with
  | axial, axial | sagittal, sagittal | coronal, coronal => true
  | _, _ => false
  end.

(** A dictionary with exactly the three plane keys, in insertion order. *)
Record by_plane (A : Type) : Type := ByPlane {
  at_axial : A;
  at_sagittal : A;
  at_coronal : A
}.
Arguments ByPlane {A} _ _ _.
Arguments at_axial {A} _.
Arguments at_sagittal {A} _.
Arguments at_coronal {A} _.

Definition lookup {A} (d : by_plane A) (p : plane) : A :=
  match p with
  | axial => at_axial d
  | sagittal => at_sagittal d
  | coronal => at_coronal d
  end.

Definition assign {A} (d : by_plane A) (p : plane) (v : A) : by_plane A :=
  match p with
  | axial => ByPlane v (at_sagittal d) (at_coronal d)
  | sagittal => ByPlane (at_axial d) v (at_coronal d)
  | coronal => ByPlane (at_axial d) (at_sagittal d) v
  end.

Definition every {A} (v : A) : by_plane A := ByPlane v v v.

Notation "d .[ p ]" := (lookup d p) (at level 1, left associativity, format "d .[ p ]").

(** [dim_index = {'sagittal': 0, 'coronal': 1, 'axial': 2}[plane]]. *)
Definition dim_index (p : plane) : nat :=
  match p with
  | sagittal => 0
  | coronal => 1
  | axial => 2
  end.

(** The Tk variables a [ttk.Scale] can be bound to. *)
Inductive tkvar : Type :=
| SliceVar (p : plane)
| BrightnessVar
| ContrastVar.

Definition tkvar_eqb (u v : tkvar) : bool :=
  match u, v with
  | SliceVar p, SliceVar q => plane_eqb p q
  | BrightnessVar, BrightnessVar | ContrastVar, ContrastVar => true
  | _, _ => false
  end.

(** The children of [control_frame]. *)
Inductive widget : Type :=
| Label
| Button
| Frame
| Scale (variable : tkvar) (from_ to : Z).

(** A matplotlib line: its visibility and the coordinate both of its end
    points share. *)
Record Line2D (A : Type) : Type := mk_line {
  visible : bool;
  coord : A
}.
Arguments mk_line {A} _ _.
Arguments visible {A} _.
Arguments coord {A} _.

Record lines (A : Type) : Type := mk_lines {
  vline : Line2D A;
  hline : Line2D A
}.
Arguments mk_lines {A} _ _.
Arguments vline {A} _.
Arguments hline {A} _.

Record display_params : Type := mk_params {
  vmin : float;
  vmax : float
}.

(** An [AxesImage]: the pixel array and its colour limits. *)
Record image : Type := mk_image {
  pixels : Np.array2;
  clim : display_params
}.

Record BrainViewer : Type := mk_viewer {
  data : option Np.ndarray;
  filename : option string;
  control_frame : list widget;
  slice_controls : by_plane Z;
  slice_entries : by_plane Py.text;
  brightness_var : float;
  contrast_var : float;
  mouse_pressed : bool;
  mouse_over_axes : option plane;
  image_plots : by_plane (option image);
  crosshair_lines : by_plane (option (lines Z));
  temp_lines : by_plane (option (lines float))
}.

Definition set_data v (s : BrainViewer) : BrainViewer :=
  mk_viewer v (filename s) (control_frame s) (slice_controls s) (slice_entries s)
    (brightness_var s) (contrast_var s) (mouse_pressed s) (mouse_over_axes s)
    (image_plots s) (crosshair_lines s) (temp_lines s).
Definition set_filename v (s : BrainViewer) : BrainViewer :=
  mk_viewer (data s) v (control_frame s) (slice_controls s) (slice_entries s)
    (brightness_var s) (contrast_var s) (mouse_pressed s) (mouse_over_axes s)
    (image_plots s) (crosshair_lines s) (temp_lines s).
Definition set_control_frame v (s : BrainViewer) : BrainViewer :=
  mk_viewer (data s) (filename s) v (slice_controls s) (slice_entries s)
    (brightness_var s) (contrast_var s) (mouse_pressed s) (mouse_over_axes s)
    (image_plots s) (crosshair_lines s) (temp_lines s).
Definition set_slice_controls v (s : BrainViewer) : BrainViewer :=
  mk_viewer (data s) (filename s) (control_frame s) v (slice_entries s)
    (brightness_var s) (contrast_var s) (mouse_pressed s) (mouse_over_axes s)
    (image_plots s) (crosshair_lines s) (temp_lines s).
Definition set_slice_entries v (s : BrainViewer) : BrainViewer :=
  mk_viewer (data s) (filename s) (control_frame s) (slice_controls s) v
    (brightness_var s) (contrast_var s) (mouse_pressed s) (mouse_over_axes s)
    (image_plots s) (crosshair_lines s) (temp_lines s).
Definition set_brightness_var v (s : BrainViewer) : BrainViewer :=
  mk_viewer (data s) (filename s) (control_frame s) (slice_controls s) (slice_entries s)
    v (contrast_var s) (mouse_pressed s) (mouse_over_axes s)
    (image_plots s) (crosshair_lines s) (temp_lines s).
Definition set_contrast_var v (s : BrainViewer) : BrainViewer :=
  mk_viewer (data s) (filename s) (control_frame s) (slice_controls s) (slice_entries s)
    (brightness_var s) v (mouse_pressed s) (mouse_over_axes s)
    (image_plots s) (crosshair_lines s) (temp_lines s).
Definition set_mouse_pressed v (s : BrainViewer) : BrainViewer :=
  mk_viewer (data s) (filename s) (control_frame s) (slice_controls s) (slice_entries s)
    (brightness_var s) (contrast_var s) v (mouse_over_axes s)
    (image_plots s) (crosshair_lines s) (temp_lines s).
Definition set_mouse_over_axes v (s : BrainViewer) : BrainViewer :=
  mk_viewer (data s) (filename s) (control_frame s) (slice_controls s) (slice_entries s)
    (brightness_var s) (contrast_var s) (mouse_pressed s) v
    (image_plots s) (crosshair_lines s) (temp_lines s).
Definition set_image_plots v (s : BrainViewer) : BrainViewer :=
  mk_viewer (data s) (filename s) (control_frame s) (slice_controls s) (slice_entries s)
    (brightness_var s) (contrast_var s) (mouse_pressed s) (mouse_over_axes s)
    v (crosshair_lines s) (temp_lines s).
Definition set_crosshair_lines v (s : BrainViewer) : BrainViewer :=
  mk_viewer (data s) (filename s) (control_frame s) (slice_controls s) (slice_entries s)
    (brightness_var s) (contrast_var s) (mouse_pressed s) (mouse_over_axes s)
    (image_plots s) v (temp_lines s).
Definition set_temp_lines v (s : BrainViewer) : BrainViewer :=
  mk_viewer (data s) (filename s) (control_frame s) (slice_controls s) (slice_entries s)
    (brightness_var s) (contrast_var s) (mouse_pressed s) (mouse_over_axes s)
    (image_plots s) (crosshair_lines s) v.

(** ** Methods as state transformers that may raise *)

(** A method runs on the viewer and ends normally with a value or by
    raising; either way the mutations made so far stay. *)
Definition M (A : Type) : Type := BrainViewer -> (Py.exn + A) * BrainViewer.

Definition ret {A} (a : A) : M A := fun s => (inr a, s).
Definition raise {A} (e : Py.exn) : M A := fun s => (inl e, s).
Definition bind {A B} (m : M A) (k : A -> M B) : M B :=
  fun s => match m s with
           | (inr a, s') => k a s'
           | (inl e, s') => (inl e, s')
           end.
Definition read {A} (f : BrainViewer -> A) : M A := fun s => (inr (f s), s).
Definition modify (f : BrainViewer -> BrainViewer) : M unit := fun s => (inr tt, f s).
Definition lift {A} (r : Py.exn + A) : M A := fun s => (r, s).

Notation "x <- m ;; k" := (bind m (fun x => k))
  (at level 61, m at next level, right associativity).
Notation "m ;;; k" := (bind m (fun _ => k))
  (at level 61, right associativity).

(** The viewer after a method, whatever its outcome. *)
Definition after {A} (m : M A) (s : BrainViewer) : BrainViewer := snd (m s).
Definition outcome {A} (m : M A) (s : BrainViewer) : Py.exn + A := fst (m s).

(** ** The methods of [BrainViewer] *)

(** A matplotlib mouse event: the view under the pointer, if any, and the
    pointer's data coordinates in it. *)
Record MouseEvent : Type := mk_event {
  inaxes : option plane;
  xdata : float;
  ydata : float
}.

(** [create_controls]: the children of [control_frame], in packing order. *)
Definition create_controls : list widget :=
  [ Label; Button;
    Frame; Scale (SliceVar axial) 0 100;
    Frame; Scale (SliceVar sagittal) 0 100;
    Frame; Scale (SliceVar coronal) 0 100;
    Label; Scale BrightnessVar 100 (-100);
    Label; Scale ContrastVar 100 (-100) ].

(** [__init__]. *)
Definition init : BrainViewer :=
  {| data := None;
     filename := None;
     control_frame := create_controls;
     slice_controls := every 0;
     slice_entries := every (Py.codes "0");
     brightness_var := 0%float;
     contrast_var := 0%float;
     mouse_pressed := false;
     mouse_over_axes := None;
     image_plots := every None;
     crosshair_lines := every None;
     temp_lines := every None |}.

(** The search through [control_frame.winfo_children()] for the first
    [ttk.Scale] bound to [var], which is then configured. *)
Fixpoint configure_scale (var : tkvar) (lo hi : Z) (children : list widget) : list widget :=
  match children with
  | [] => []
  | Scale v a b :: rest =>
      if tkvar_eqb v var then Scale v lo hi :: rest
      else Scale v a b :: configure_scale var lo hi rest
  | child :: rest => child :: configure_scale var lo hi rest
  end.

Definition set_var (p : plane) (v : Z) : M unit :=
  modify (fun s => set_slice_controls (assign (slice_controls s) p v) s).

Definition set_entry (p : plane) (text : Py.text) : M unit :=
  modify (fun s => set_slice_entries (assign (slice_entries s) p text) s).

(** One turn of the loop of [initialize_slice_positions]. *)
Definition initialize_slice_position (d : Np.ndarray) (p : plane) : M unit :=
  let max_val := Np.dim d (dim_index p) - 1 in
  let middle_val := max_val / 2 in
  set_var p middle_val ;;;
  set_entry p (Py.str middle_val) ;;;
  modify (fun s => set_control_frame
                     (configure_scale (SliceVar p) 0 max_val (control_frame s)) s).

Definition initialize_slice_positions : M unit :=
  d <- read data ;;
  match d with
  | None => ret tt
  | Some d =>
      initialize_slice_position d axial ;;;
      initialize_slice_position d sagittal ;;;
      initialize_slice_position d coronal
  end.

Definition get_slice_display_params : M display_params :=
  b <- read brightness_var ;;
  let brightness := (b / 100)%float in
  c <- read contrast_var ;;
  let contrast := ((c + 100) / 100)%float in
  d <- read data ;;
  match d with
  | None => raise Py.TypeError
  | Some d =>
      data_min <- lift (Np.amin d) ;;
      data_max <- lift (Np.amax d) ;;
      let data_range := (data_max - data_min)%float in
      ret {| vmin := (data_min + brightness * data_range)%float;
             vmax := (data_max * contrast)%float |}
  end.

(** The dictionary [slices] of [initialize_plots] and [update_image_data]. *)
Definition view_slices (d : Np.ndarray) (x y z : Z) : M (by_plane Np.array2) :=
  a <- lift (Np.slice_z d z) ;;
  s <- lift (Np.slice_x d x) ;;
  c <- lift (Np.slice_y d y) ;;
  ret {| at_axial := Np.flip1 (Np.rot90 (Np.dim d 1) a);
         at_sagittal := Np.flip1 (Np.rot90 (Np.dim d 2) s);
         at_coronal := Np.flip1 (Np.rot90 (Np.dim d 2) c) |}.

(** [crosshair_lines[view]['vline'].set_xdata([vx, vx])] followed by
    [crosshair_lines[view]['hline'].set_ydata([hy, hy])]. *)
Definition set_crosshair (view : plane) (vx hy : Z) : M unit :=
  cl <- read crosshair_lines ;;
  match cl.[view] with
  | None => raise Py.AttributeError
  | Some l =>
      modify (set_crosshair_lines
                (assign cl view
                   (Some {| vline := mk_line (visible (vline l)) vx;
                            hline := mk_line (visible (hline l)) hy |})))
  end.

Definition update_crosshairs : M unit :=
  d <- read data ;;
  match d with
  | None => ret tt
  | Some d =>
      x <- read (fun s => (slice_controls s).[sagittal]) ;;
      y <- read (fun s => (slice_controls s).[coronal]) ;;
      z <- read (fun s => (slice_controls s).[axial]) ;;
      set_crosshair axial x (Np.dim d 1 - y - 1) ;;;
      set_crosshair sagittal (Np.dim d 1 - y - 1) z ;;;
      set_crosshair coronal x z
  end.

(** [img_plot.set_data] with the slice and [img_plot.set_clim] with the
    display parameters. *)
Definition set_image (view : plane) (px : Np.array2) (dp : display_params) : M unit :=
  ip <- read image_plots ;;
  match ip.[view] with
  | None => raise Py.AttributeError
  | Some _ => modify (set_image_plots (assign ip view (Some (mk_image px dp))))
  end.

Definition update_image_data : M unit :=
  d <- read data ;;
  match d with
  | None => ret tt
  | Some d =>
      dp <- get_slice_display_params ;;
      x <- read (fun s => (slice_controls s).[sagittal]) ;;
      y <- read (fun s => (slice_controls s).[coronal]) ;;
      z <- read (fun s => (slice_controls s).[axial]) ;;
      slices <- view_slices d x y z ;;
      set_image axial slices.[axial] dp ;;;
      set_image sagittal slices.[sagittal] dp ;;;
      set_image coronal slices.[coronal] dp
  end.

(** What [initialize_plots] creates in one view: the image, the two
    crosshair lines and the two hidden hover lines. *)
Definition new_plot (view : plane) (px : Np.array2) (dp : display_params) : M unit :=
  modify (fun s => set_image_plots (assign (image_plots s) view (Some (mk_image px dp))) s) ;;;
  modify (fun s => set_crosshair_lines
                     (assign (crosshair_lines s) view
                        (Some {| vline := mk_line true 0; hline := mk_line true 0 |})) s) ;;;
  modify (fun s => set_temp_lines
                     (assign (temp_lines s) view
                        (Some {| vline := mk_line false 0%float;
                                 hline := mk_line false 0%float |})) s).

Definition initialize_plots : M unit :=
  d <- read data ;;
  match d with
  | None => ret tt
  | Some d =>
      dp <- get_slice_display_params ;;
      x <- read (fun s => (slice_controls s).[sagittal]) ;;
      y <- read (fun s => (slice_controls s).[coronal]) ;;
      z <- read (fun s => (slice_controls s).[axial]) ;;
      slices <- view_slices d x y z ;;
      new_plot axial slices.[axial] dp ;;;
      new_plot sagittal slices.[sagittal] dp ;;;
      new_plot coronal slices.[coronal] dp ;;;
      update_crosshairs
  end.

(** [lines['vline'].set_visible(False)] and the same for ['hline']. *)
Definition hide_temp (view : plane) : M unit :=
  tl <- read temp_lines ;;
  match tl.[view] with
  | None => raise Py.AttributeError
  | Some l =>
      modify (set_temp_lines
                (assign tl view
                   (Some {| vline := mk_line false (coord (vline l));
                            hline := mk_line false (coord (hline l)) |})))
  end.

(** The four calls that show the hover lines of [view] at the pointer. *)
Definition show_temp (view : plane) (x y : float) : M unit :=
  tl <- read temp_lines ;;
  match tl.[view] with
  | None => raise Py.AttributeError
  | Some _ =>
      modify (set_temp_lines
                (assign tl view
                   (Some {| vline := mk_line true x; hline := mk_line true y |})))
  end.

Definition update_temp_crosshairs (event : MouseEvent) : M unit :=
  d <- read data ;;
  match inaxes event, d with
  | Some view_name, Some _ =>
      hide_temp axial ;;;
      hide_temp sagittal ;;;
      hide_temp coronal ;;;
      show_temp view_name (xdata event) (ydata event)
  | _, _ => ret tt
  end.

(** [try: body except ValueError: handler]. *)
Definition try_except_ValueError (body handler : M unit) : M unit :=
  fun s => match body s with
           | (inl Py.ValueError, s') => handler s'
           | r => r
           end.

(** [try: body except Exception: handler]. *)
Definition try_except_Exception (body handler : M unit) : M unit :=
  fun s => match body s with
           | (inl _, s') => handler s'
           | r => r
           end.

(** [load_nifti], given what the file dialog returned and what the volume
    loader made of that file. The log line and the message boxes leave the
    viewer as it is. *)
Definition load_nifti (chosen : string) (img : Py.exn + Np.ndarray) : M unit :=
  try_except_Exception
    (match chosen with
     | EmptyString => ret tt
     | _ =>
         modify (set_filename (Some chosen)) ;;;
         d <- lift img ;;
         modify (set_data (Some d)) ;;;
         initialize_slice_positions ;;;
         initialize_plots
     end)
    (ret tt).

Definition on_slider_change (value : float) (p : plane) : M unit :=
  v <- lift (Py.int_of_float value) ;;
  set_entry p (Py.str v) ;;;
  update_image_data ;;;
  update_crosshairs.

Definition on_entry_change (p : plane) : M unit :=
  try_except_ValueError
    (text <- read (fun s => (slice_entries s).[p]) ;;
     match Py.int_of_str text with
     | None => raise Py.ValueError
     | Some value =>
         d <- read data ;;
         let value :=
           match d with
           | Some d =>
               let max_val := Np.dim d (dim_index p) - 1 in
               Z.max 0 (Z.min value max_val)
           | None => value
           end in
         set_var p value ;;;
         set_entry p (Py.str value) ;;;
         update_image_data ;;;
         update_crosshairs
     end)
    (v <- read (fun s => (slice_controls s).[p]) ;;
     set_entry p (Py.str v)).

Definition on_axes_enter (event : MouseEvent) : M unit :=
  modify (set_mouse_over_axes (inaxes event)).

Definition on_axes_leave (event : MouseEvent) : M unit :=
  modify (set_mouse_over_axes None) ;;;
  update_image_data ;;;
  update_crosshairs.

Definition update_cursor_position (event : MouseEvent) : M unit :=
  d <- read data ;;
  match inaxes event, d with
  | Some view_name, Some d =>
      x <- lift (Py.int_of_float (Np.clip (xdata event) 0 (Np.dim d 0 - 1))) ;;
      y <- lift (Py.int_of_float (Np.clip (ydata event) 0 (Np.dim d 1 - 1))) ;;
      match view_name with
      | axial =>
          set_var sagittal x ;;;
          let coronal_y := Np.dim d 1 - y - 1 in
          set_var coronal coronal_y ;;;
          set_entry sagittal (Py.str x) ;;;
          set_entry coronal (Py.str coronal_y)
      | sagittal =>
          let coronal_x := Np.dim d 1 - x - 1 in
          set_var coronal coronal_x ;;;
          set_var axial y ;;;
          set_entry coronal (Py.str coronal_x) ;;;
          set_entry axial (Py.str y)
      | coronal =>
          set_var sagittal x ;;;
          set_var axial y ;;;
          set_entry sagittal (Py.str x) ;;;
          set_entry axial (Py.str y)
      end ;;;
      update_image_data ;;;
      update_crosshairs
  | _, _ => ret tt
  end.

Definition on_motion (event : MouseEvent) : M unit :=
  d <- read data ;;
  match inaxes event, d with
  | Some _, Some _ =>
      pressed <- read mouse_pressed ;;
      if pressed then update_cursor_position event
      else update_temp_crosshairs event
  | _, _ => ret tt
  end.

Definition on_click (event : MouseEvent) : M unit :=
  d <- read data ;;
  match inaxes event, d with
  | Some _, Some _ =>
      modify (set_mouse_pressed true) ;;;
      update_cursor_position event
  | _, _ => ret tt
  end.

Definition on_release (event : MouseEvent) : M unit :=
  modify (set_mouse_pressed false).

Definition update_display : M unit :=
  update_image_data ;;;
  update_crosshairs.

(** ** The event loop *)

(** What the user and the toolkit can do to the viewer. *)
Inductive input : Type :=
| SelectFile (chosen : string) (img : Py.exn + Np.ndarray)
| SlideSlice (p : plane) (value : float)
| TypeEntry (p : plane) (text : Py.text)
| CommitEntry (p : plane)
| SlideBrightness (value : float)
| SlideContrast (value : float)
| ButtonPress (event : MouseEvent)
| MotionNotify (event : MouseEvent)
| ButtonRelease (event : MouseEvent)
| AxesEnter (event : MouseEvent)
| AxesLeave (event : MouseEvent).

(** The range of the first scale bound to [var]. *)
Fixpoint scale_range (var : tkvar) (children : list widget) : option (Z * Z) :=
  match children with
  | [] => None
  | Scale v a b :: rest =>
      if tkvar_eqb v var then Some (a, b) else scale_range var rest
  | _ :: rest => scale_range var rest
  end.

(** A [ttk.Scale] reports positions between its two ends only. *)
Definition scale_value (var : tkvar) (value : float) (s : BrainViewer) : float :=
  match scale_range var (control_frame s) with
  | Some (a, b) => Np.clip value (Z.min a b) (Z.max a b)
  | None => value
  end.

(** The toolkit's part of an input (writing the bound Tk variable) and
    the callback it then invokes. An [IntVar] bound to a scale is read
    back through [int]. *)
Definition dispatch (i : input) : M unit :=
  match i with
  | SelectFile chosen img => load_nifti chosen img
  | SlideSlice p value =>
      v <- read (scale_value (SliceVar p) value) ;;
      n <- lift (Py.int_of_float v) ;;
      set_var p n ;;;
      on_slider_change v p
  | TypeEntry p text => set_entry p text
  | CommitEntry p => on_entry_change p
  | SlideBrightness value =>
      v <- read (scale_value BrightnessVar value) ;;
      modify (set_brightness_var v) ;;;
      update_display
  | SlideContrast value =>
      v <- read (scale_value ContrastVar value) ;;
      modify (set_contrast_var v) ;;;
      update_display
  | ButtonPress event => on_click event
  | MotionNotify event => on_motion event
  | ButtonRelease event => on_release event
  | AxesEnter event => on_axes_enter event
  | AxesLeave event => on_axes_leave event
  end.

(** An exception that escapes a callback is reported and the loop goes
    on with the viewer as the callback left it. *)
Definition step (s : BrainViewer) (i : input) : BrainViewer := after (dispatch i) s.

Definition run (inputs : list input) (s : BrainViewer) : BrainViewer :=
  fold_left step inputs s.

Inductive reachable : BrainViewer -> Prop :=
| reachable_init : reachable init
| reachable_step s i : reachable s -> reachable (step s i).

(** ** Derived notions used in the statements *)

(** The cursor a click at integer pixel [(x, y)] of [view] writes: the
    body of the [if view_name == ...] chain. *)
Definition clicked_cursor (d : Np.ndarray) (view : plane) (x y : Z)
    (cursor : by_plane Z) : by_plane Z :=
  match view with
  | axial => assign (assign cursor sagittal x) coronal (Np.dim d 1 - y - 1)
  | sagittal => assign (assign cursor coronal (Np.dim d 1 - x - 1)) axial y
  | coronal => assign (assign cursor sagittal x) axial y
  end.

(** The index-to-pixel mapping of [update_crosshairs]: where the vertical
    and the horizontal crosshair line of [view] are put for a cursor. *)
Definition crosshair_of (d : Np.ndarray) (view : plane) (cursor : by_plane Z) : Z * Z :=
  let x := cursor.[sagittal] in
  let y := cursor.[coronal] in
  let z := cursor.[axial] in
  match view with
  | axial => (x, Np.dim d 1 - y - 1)
  | sagittal => (Np.dim d 1 - y - 1, z)
  | coronal => (x, z)
  end.

(** Every component of the cursor indexes its own axis. *)
Definition in_range (d : Np.ndarray) (cursor : by_plane Z) : Prop :=
  forall p, 0 <= cursor.[p] < Np.dim d (dim_index p).

(** The same as a test. *)
Definition in_rangeb (d : Np.ndarray) (cursor : by_plane Z) : bool :=
  let ok p := (0 <=? cursor.[p]) && (cursor.[p] <? Np.dim d (dim_index p)) in
  ok axial && ok sagittal && ok coronal.

(** The two clip bounds of [update_cursor_position], [shape[0] - 1] and
    [shape[1] - 1], are no smaller than the width and the height of the
    slice [view] displays. *)
Definition clip_covers (d : Np.ndarray) (view : plane) : Prop :=
  match view with
  | axial => True
  | sagittal => Np.dim d 1 <= Np.dim d 0 /\ Np.dim d 2 <= Np.dim d 1
  | coronal => Np.dim d 2 <= Np.dim d 1
  end.

(** The pixel at which [update_crosshairs] has put the crosshair of a view. *)
Definition crosshair_pixel (view : plane) (s : BrainViewer) : option (Z * Z) :=
  match (crosshair_lines s).[view] with
  | Some l => Some (coord (vline l), coord (hline l))
  | None => None
  end.

(** A mouse event of [view] exactly at integer pixel [(px, py)]. *)
Definition event_at (view : plane) (px py : Z) : MouseEvent :=
  mk_event (Some view) (Py.float_of_int px) (Py.float_of_int py).

(** The display range in the specification's words: brightness maps to the
    fraction [b = brightness / 100] and [vmin = dataMin + b * (dataMax -
    dataMin)]; contrast maps to the multiplier [c = (contrast + 100) / 100]
    and [vmax = dataMax * c]. *)
Definition computeRange (dataMin dataMax brightness contrast : float) : display_params :=
  let b := (brightness / 100)%float in
  let c := ((contrast + 100) / 100)%float in
  {| vmin := (dataMin + b * (dataMax - dataMin))%float;
     vmax := (dataMax * c)%float |}.

(** A float that is neither [nan] nor an infinity. *)
Definition finite (f : float) : bool :=
  match Prim2SF f with
  | S754_zero _ | S754_finite _ _ _ => true
  | S754_infinity _ | S754_nan => false
  end.

(** A widget without the ends of its scale: what [configure] cannot change. *)
Definition kind (w : widget) : widget :=
  match w with
  | Scale v _ _ => Scale v 0 0
  | _ => w
  end.

Definition layout (s : BrainViewer) : list widget := map kind (control_frame s).

(** The viewer after the three turns of the loop of
    [initialize_slice_positions] on volume [d]. *)
Definition centred (d : Np.ndarray) (s : BrainViewer) : BrainViewer :=
  let mx p := Np.dim d (dim_index p) - 1 in
  set_control_frame
    (configure_scale (SliceVar coronal) 0 (mx coronal)
       (configure_scale (SliceVar sagittal) 0 (mx sagittal)
          (configure_scale (SliceVar axial) 0 (mx axial) (control_frame s))))
    (set_slice_entries
       {| at_axial := Py.str (mx axial / 2);
          at_sagittal := Py.str (mx sagittal / 2);
          at_coronal := Py.str (mx coronal / 2) |}
       (set_slice_controls
          {| at_axial := mx axial / 2;
             at_sagittal := mx sagittal / 2;
             at_coronal := mx coronal / 2 |} s)).

(** The element [m[r][c]] of a two-dimensional array. *)
Definition pixel_at (m : Np.array2) (r c : Z) : float :=
  nth (Z.to_nat c) (nth (Z.to_nat r) m []) 0%float.


(** [initialize_plots] has run: every view has its image, its crosshair
    lines and its hover lines. *)
Definition plotted (s : BrainViewer) : Prop :=
  forall v, (image_plots s).[v] <> None /\ (crosshair_lines s).[v] <> None /\
            (temp_lines s).[v] <> None.

(** The array with [rows] rows and [cols] columns whose element [(r, c)]
    is [f r c]. *)
Definition table {A} (rows cols : Z) (f : Z -> Z -> A) : list (list A) :=
  map (fun r => map (fun c => f r c) (Np.arange cols)) (Np.arange rows).

(** The three slices at a cursor, rotated and flipped as
    [update_image_data] and [initialize_plots] display them. *)
Definition shown (d : Np.ndarray) (cursor : by_plane Z) : by_plane Np.array2 :=
  let x := cursor.[sagittal] in
  let y := cursor.[coronal] in
  let z := cursor.[axial] in
  {| at_axial :=
       Np.flip1 (Np.rot90 (Np.dim d 1)
                   (table (Np.dim d 0) (Np.dim d 1) (fun i j => Np.item d i j z)));
     at_sagittal :=
       Np.flip1 (Np.rot90 (Np.dim d 2)
                   (table (Np.dim d 1) (Np.dim d 2) (fun j k => Np.item d x j k)));
     at_coronal :=
       Np.flip1 (Np.rot90 (Np.dim d 2)
                   (table (Np.dim d 0) (Np.dim d 2) (fun i k => Np.item d i y k))) |}.

(** What [initialize_plots] leaves when it ends normally: the images, the
    crosshair lines at the cursor and the hidden hover lines. *)
Definition fresh_plots (d : Np.ndarray) (dp : display_params) (s : BrainViewer) : BrainViewer :=
  let sl := shown d (slice_controls s) in
  let at_ v := crosshair_of d v (slice_controls s) in
  let cross v := Some {| vline := mk_line true (fst (at_ v));
                         hline := mk_line true (snd (at_ v)) |} in
  let hidden := Some {| vline := mk_line false 0%float; hline := mk_line false 0%float |} in
  set_crosshair_lines
    {| at_axial := cross axial; at_sagittal := cross sagittal; at_coronal := cross coronal |}
    (set_temp_lines (every hidden)
       (set_image_plots
          {| at_axial := Some (mk_image sl.[axial] dp);
             at_sagittal := Some (mk_image sl.[sagittal] dp);
             at_coronal := Some (mk_image sl.[coronal] dp) |} s)).

(** Every component of a cursor indexes its axis of a volume of shape
    [(nx, ny, nz)]. *)
Definition within (nx ny nz : Z) (cursor : by_plane Z) : Prop :=
  0 <= cursor.[sagittal] < nx /\ 0 <= cursor.[coronal] < ny /\ 0 <= cursor.[axial] < nz.

(** The cursor is within the loaded volume and the slice scales run over
    its axes, for a volume whose shape the click bounds fit:
    [1 <= Nx <= Ny <= Nz <= 2 ^ 53]. *)
Definition tracks_volume (s : BrainViewer) : Prop :=
  forall d nx ny nz,
    data s = Some d ->
    Np.shape d = (nx, ny, nz) ->
    1 <= nx -> nx <= ny -> ny <= nz -> nz <= 2 ^ 53 ->
    within nx ny nz (slice_controls s) /\
    scale_range (SliceVar sagittal) (control_frame s) = Some (0, nx - 1) /\
    scale_range (SliceVar coronal) (control_frame s) = Some (0, ny - 1) /\
    scale_range (SliceVar axial) (control_frame s) = Some (0, nz - 1).

(** Whether an optional value is there. *)
Definition is_some {A} (o : option A) : bool :=
  match o with
  | Some _ => true
  | None => false
  end.

(** Which of the plot elements exist: per view, the image, the crosshair
    lines and the hover lines. *)
Definition drawn (s : BrainViewer) : list bool :=
  [ is_some (image_plots s).[axial]; is_some (image_plots s).[sagittal];
    is_some (image_plots s).[coronal];
    is_some (crosshair_lines s).[axial]; is_some (crosshair_lines s).[sagittal];
    is_some (crosshair_lines s).[coronal];
    is_some (temp_lines s).[axial]; is_some (temp_lines s).[sagittal];
    is_some (temp_lines s).[coronal] ].


(** Every entry shows the value of its slice variable. *)
Definition entries_follow (s : BrainViewer) : Prop :=
  forall p, (slice_entries s).[p] = Py.str (slice_controls s).[p].

(** The cursor and the entries: what the redraw does not touch. *)
Definition position (s : BrainViewer) : by_plane Z * by_plane Py.text :=
  (slice_controls s, slice_entries s).



(** ** Volumes and viewers used as concrete inputs *)

(** A volume of the given shape with every voxel zero. *)
Definition blank (nx ny nz : Z) : Np.ndarray :=
  Np.mk_ndarray (nx, ny, nz) (repeat 0%float (Z.to_nat (nx * ny * nz))).

(** The viewer right after a volume of shape (10, 20, 30) was opened. *)
Definition opened_10_20_30 : BrainViewer :=
  run [SelectFile "brain.nii" (inr (blank 10 20 30))] init.

(** The volume of shape (10, 20, 30) with the cursor typed to
    x = 5, y = 3, z = 25; every component is in range. *)
Definition cursor_5_3_25 : BrainViewer :=
  run [TypeEntry sagittal (Py.codes "5"); CommitEntry sagittal;
       TypeEntry coronal (Py.codes "3"); CommitEntry coronal;
       TypeEntry axial (Py.codes "25"); CommitEntry axial]
      opened_10_20_30.

(** The viewer of the scenario: the coronal slice is 7 and the user has
    typed "abc" into its entry. *)
Definition coronal_7_typed_abc : BrainViewer :=
  run [TypeEntry coronal (Py.codes "7"); CommitEntry coronal; TypeEntry coronal (Py.codes "abc")]
      opened_10_20_30.

(** The viewer after a volume of shape (10, 20, 5) was opened and the
    coronal view was clicked at pixel (3, 15), a point of the coronal axes
    below the displayed slice. *)
Definition coronal_click_below_slice : BrainViewer :=
  run [SelectFile "brain.nii" (inr (blank 10 20 5));
       ButtonPress (event_at coronal 3 15)] init.

(** The viewer after the pointer hovered over pixel (3, 5) of the axial
    view with no button held and then left that view. *)
Definition hovered_then_left : BrainViewer :=
  run [MotionNotify (event_at axial 3 5); AxesLeave (event_at axial 3 5)]
      opened_10_20_30.

(** A volume with intensities between 0 and 200. *)
Definition ramp_0_200 : Np.ndarray :=
  Np.mk_ndarray (2, 2, 2) [0; 25; 50; 75; 100; 150; 175; 200]%float.

(** The viewer after that volume was opened and the brightness scale was
    moved to 50; the contrast is still 0. *)
Definition brightness_50 : BrainViewer :=
  run [SelectFile "ramp.nii" (inr ramp_0_200); SlideBrightness 50] init.

(** A volume whose two voxels are the largest power of two and its
    opposite: their difference overflows to infinity. *)
Definition saturated : Np.ndarray :=
  Np.mk_ndarray (1, 1, 2) [(-0x1p+1023)%float; 0x1p+1023%float].

(** A volume of shape (2, 3, 4) whose voxel [(i, j, k)] holds its own
    position in C order, [(i * 3 + j) * 4 + k]. *)
Definition numbered_2_3_4 : Np.ndarray :=
  Np.mk_ndarray (2, 3, 4) (map Py.float_of_int (Np.arange 24)).

(** The viewer right after that volume was opened: the cursor is at
    x = 0, y = 1, z = 1. *)
Definition opened_2_3_4 : BrainViewer :=
  run [SelectFile "numbered.nii" (inr numbered_2_3_4)] init.

(** ** Reasoning about methods *)

Arguments Np.clip : simpl never.
Arguments Py.int_of_float : simpl never.
Arguments Py.float_of_int : simpl never.
Arguments Py.int_of_str : simpl never.
Arguments Py.str : simpl never.
Arguments Np.amin : simpl never.
Arguments Np.amax : simpl never.
Arguments Np.slice_x : simpl never.
Arguments Np.slice_y : simpl never.
Arguments Np.slice_z : simpl never.

Lemma after_bind {A B} (m : M A) (k : A -> M B) (s : BrainViewer) :
  after (bind m k) s =
  match outcome m s with
  | inr a => after (k a) (after m s)
  | inl _ => after m s
  end.
Proof. unfold after, outcome, bind. destruct (m s) as [[e | a] s']; reflexivity. Qed.


(** A method keeps an observation [f] of the viewer when [f] reads the
    same after the method as before, however the method ends. *)
Definition keeps {A B} (f : BrainViewer -> B) (m : M A) : Prop :=
  forall s, f (after m s) = f s.

Section Keeps.
Context {B : Type} (f : BrainViewer -> B).

Lemma keeps_ret {A} (a : A) : keeps f (ret a).
Proof. intro s. reflexivity. Qed.

Lemma keeps_raise {A} (e : Py.exn) : keeps f (@raise A e).
Proof. intro s. reflexivity. Qed.

Lemma keeps_lift {A} (r : Py.exn + A) : keeps f (lift r).
Proof. intro s. reflexivity. Qed.

Lemma keeps_read {A} (g : BrainViewer -> A) : keeps f (read g).
Proof. intro s. reflexivity. Qed.

Lemma keeps_modify (g : BrainViewer -> BrainViewer) :
  (forall s, f (g s) = f s) -> keeps f (modify g).
Proof. intros H s. apply H. Qed.

Lemma keeps_bind {A C} (m : M A) (k : A -> M C) :
  keeps f m -> (forall a, keeps f (k a)) -> keeps f (bind m k).
Proof.
  intros Hm Hk s. rewrite after_bind.
  destruct (outcome m s) as [e | a].
  - apply Hm.
  - rewrite Hk. apply Hm.
Qed.

Lemma keeps_try_ValueError (body handler : M unit) :
  keeps f body -> keeps f handler -> keeps f (try_except_ValueError body handler).
Proof.
  intros Hb Hh s. specialize (Hb s). unfold after, try_except_ValueError in *.
  destruct (body s) as [[[] | []] s']; simpl in *; try assumption;
    rewrite <- Hb; apply Hh.
Qed.

Lemma keeps_try_Exception (body handler : M unit) :
  keeps f body -> keeps f handler -> keeps f (try_except_Exception body handler).
Proof.
  intros Hb Hh s. specialize (Hb s). unfold after, try_except_Exception in *.
  destruct (body s) as [[e | []] s']; simpl in *; try assumption;
    rewrite <- Hb; apply Hh.
Qed.
End Keeps.

Create HintDb frame.

(** Breaks a [keeps] goal down along the structure of the method; calls
    of methods already shown to keep the observation are closed from the
    [frame] hints. *)
Ltac frame_step :=
  match goal with
  | |- keeps _ _ => solve [auto with frame]
  | |- keeps _ (bind _ _) => apply keeps_bind; [ | intros ]
  | |- keeps _ (ret _) => apply keeps_ret
  | |- keeps _ (raise _) => apply keeps_raise
  | |- keeps _ (lift _) => apply keeps_lift
  | |- keeps _ (read _) => apply keeps_read
  | |- keeps _ (modify _) =>
      apply keeps_modify; intros; first [ reflexivity | solve [ simpl; auto with frame ] ]
  | |- keeps _ (try_except_ValueError _ _) => apply keeps_try_ValueError
  | |- keeps _ (try_except_Exception _ _) => apply keeps_try_Exception
  | |- keeps _ (match ?x with _ => _ end) => destruct x
  | |- keeps _ (if ?x then _ else _) => destruct x
  end.

Ltac frame := repeat frame_step.

(** The cursor is written by [set_var] only. *)
Lemma set_entry_keeps_cursor p text : keeps slice_controls (set_entry p text).
Proof. unfold set_entry. frame. Qed.

Lemma get_slice_display_params_keeps {B} (f : BrainViewer -> B) :
  keeps f get_slice_display_params.
Proof. unfold get_slice_display_params. frame. Qed.

Lemma view_slices_keeps {B} (f : BrainViewer -> B) d x y z :
  keeps f (view_slices d x y z).
Proof. unfold view_slices. frame. Qed.

#[export] Hint Resolve set_entry_keeps_cursor get_slice_display_params_keeps
  view_slices_keeps : frame.

Section Redraw.
(** The methods that redraw write the image plots, the crosshair lines
    and the hover lines, and so keep every observation that does not
    read those three fields. *)
Context {B : Type} (f : BrainViewer -> B).
Hypothesis f_image : forall v s, f (set_image_plots v s) = f s.
Hypothesis f_cross : forall v s, f (set_crosshair_lines v s) = f s.
Hypothesis f_temp : forall v s, f (set_temp_lines v s) = f s.

Lemma update_image_data_keeps : keeps f update_image_data.
Proof.
  unfold update_image_data, set_image. frame;
    apply keeps_modify; intros; apply f_image.
Qed.

Lemma update_crosshairs_keeps : keeps f update_crosshairs.
Proof.
  unfold update_crosshairs, set_crosshair. frame;
    apply keeps_modify; intros; apply f_cross.
Qed.

Lemma update_temp_crosshairs_keeps event : keeps f (update_temp_crosshairs event).
Proof.
  unfold update_temp_crosshairs, hide_temp, show_temp. frame;
    apply keeps_modify; intros; apply f_temp.
Qed.

Lemma initialize_plots_keeps : keeps f initialize_plots.
Proof.
  unfold initialize_plots, new_plot. frame;
    try (apply keeps_modify; intros;
         first [ apply f_image | apply f_cross | apply f_temp ]).
  apply update_crosshairs_keeps.
Qed.
End Redraw.

Lemma update_image_data_keeps_cursor : keeps slice_controls update_image_data.
Proof. apply update_image_data_keeps; reflexivity. Qed.

Lemma update_crosshairs_keeps_cursor : keeps slice_controls update_crosshairs.
Proof. apply update_crosshairs_keeps; reflexivity. Qed.

Lemma update_temp_crosshairs_keeps_cursor event :
  keeps slice_controls (update_temp_crosshairs event).
Proof. apply update_temp_crosshairs_keeps; reflexivity. Qed.

Lemma initialize_plots_keeps_cursor : keeps slice_controls initialize_plots.
Proof. apply initialize_plots_keeps; reflexivity. Qed.

#[export] Hint Resolve update_image_data_keeps_cursor update_crosshairs_keeps_cursor
  update_temp_crosshairs_keeps_cursor initialize_plots_keeps_cursor : frame.

Lemma keeps_map {A B C} (f : BrainViewer -> B) (g : B -> C) (m : M A) :
  keeps f m -> keeps (fun s => g (f s)) m.
Proof. intros H s. rewrite H. reflexivity. Qed.

Lemma try_except_ValueError_observe {B} (f : BrainViewer -> B) body handler s :
  keeps f handler ->
  f (after (try_except_ValueError body handler) s) = f (after body s).
Proof.
  intros Hh. specialize (Hh (snd (body s))).
  unfold after, try_except_ValueError in *.
  destruct (body s) as [[[] | []] s']; try reflexivity. exact Hh.
Qed.

(** ** Integers as binary64 floats *)

Lemma digits2_pos_bounds (m : positive) :
  2 ^ (Zpos (digits2_pos m) - 1) <= Zpos m < 2 ^ Zpos (digits2_pos m).
Proof.
  induction m as [m IH | m IH | ]; cbn [digits2_pos].
  - rewrite Pos2Z.inj_succ, (Pos2Z.inj_xI m).
    replace (Z.succ (Zpos (digits2_pos m)) - 1) with (Z.succ (Zpos (digits2_pos m) - 1)) by lia.
    rewrite !Z.pow_succ_r by lia. lia.
  - rewrite Pos2Z.inj_succ, (Pos2Z.inj_xO m).
    replace (Z.succ (Zpos (digits2_pos m)) - 1) with (Z.succ (Zpos (digits2_pos m) - 1)) by lia.
    rewrite !Z.pow_succ_r by lia. lia.
  - cbn. lia.
Qed.

Lemma iter_xO_value (m k : positive) :
  Zpos (Pos.iter xO m k) = Zpos m * 2 ^ Zpos k.
Proof.
  induction k as [ | k IH] using Pos.peano_ind.
  - cbn. lia.
  - rewrite Pos.iter_succ, (Pos2Z.inj_xO (Pos.iter xO m k)), IH, Pos2Z.inj_succ, Z.pow_succ_r by lia. lia.
Qed.

Lemma iter_xO_digits (m k : positive) :
  Zpos (digits2_pos (Pos.iter xO m k)) = Zpos (digits2_pos m) + Zpos k.
Proof.
  induction k as [ | k IH] using Pos.peano_ind.
  - cbn [Pos.iter digits2_pos]. lia.
  - rewrite Pos.iter_succ. cbn [digits2_pos]. lia.
Qed.

(** A mantissa that already has the canonical exponent is not rounded. *)
Lemma binary_round_aux_canonical (sx : bool) (m : positive) (e : Z) :
  canonical_mantissa prec emax m e = true ->
  e <= emax - prec ->
  binary_round_aux prec emax sx (Zpos m) e loc_Exact = S754_finite sx m e.
Proof.
  unfold canonical_mantissa. intros Hc Hb. apply Z.eqb_eq in Hc.
  unfold binary_round_aux, shr_fexp.
  cbn [Zdigits2]. rewrite Hc, Z.sub_diag.
  cbn [shr shr_record_of_loc shr_m loc_of_shr_record round_nearest_even Zdigits2].
  rewrite Hc, Z.sub_diag. cbn [shr shr_m].
  apply Z.leb_le in Hb. rewrite Hb. reflexivity.
Qed.

(** The binary64 form of a positive integer below [2 ^ 53]: the integer
    shifted left until it has 53 digits. *)
Lemma binary_normalize_small (m : positive) :
  Zpos m < 2 ^ 53 ->
  exists mz,
    binary_normalize prec emax (Zpos m) 0 false
    = S754_finite false mz (Zpos (digits2_pos m) - 53) /\
    Zpos mz = Zpos m * 2 ^ (53 - Zpos (digits2_pos m)) /\
    valid_binary (S754_finite false mz (Zpos (digits2_pos m) - 53)) = true.
Proof.
  intros Hm. unfold binary_normalize, binary_round.
  pose proof (digits2_pos_bounds m) as [Hlo Hhi].
  assert (Hd : Zpos (digits2_pos m) <= 53).
  { destruct (Z_le_gt_dec (Zpos (digits2_pos m)) 53) as [ | Hgt]; [ assumption | ].
    exfalso. assert (2 ^ 53 <= 2 ^ (Zpos (digits2_pos m) - 1)) by (apply Z.pow_le_mono_r; lia).
    lia. }
  set (d := Zpos (digits2_pos m)) in *.
  assert (Hfexp : fexp prec emax (d + 0) = d - 53).
  { unfold fexp, SpecFloat.emin, prec, emax. lia. }
  rewrite Hfexp.
  unfold shl_align.
  destruct (d - 53 - 0) as [ | k | k] eqn:Hk; try lia.
  - exists m. replace (d - 53) with 0 by lia.
    assert (Hcanon : canonical_mantissa prec emax m 0 = true).
    { unfold canonical_mantissa. apply Z.eqb_eq. fold d. rewrite Hfexp. lia. }
    rewrite binary_round_aux_canonical by (assumption || (unfold prec, emax; lia)).
    repeat split.
    + replace (53 - d) with 0 by lia. lia.
    + cbn [valid_binary]. unfold bounded. rewrite Hcanon. reflexivity.
  - exists (Pos.iter xO m k).
    assert (Hcanon : canonical_mantissa prec emax (Pos.iter xO m k) (d - 53) = true).
    { unfold canonical_mantissa. apply Z.eqb_eq. rewrite iter_xO_digits. fold d.
      replace (d + Zpos k + (d - 53)) with (d + 0) by lia. exact Hfexp. }
    assert (Hbound : d - 53 <= emax - prec) by (unfold prec, emax; lia).
    rewrite binary_round_aux_canonical by assumption.
    repeat split.
    + rewrite iter_xO_value. f_equal. f_equal. lia.
    + cbn [valid_binary]. unfold bounded. rewrite Hcanon.
      apply Z.leb_le in Hbound. rewrite Hbound. reflexivity.
Qed.

Lemma Prim2SF_float_of_int_pos (m : positive) :
  Zpos m < 2 ^ 53 ->
  exists mz,
    Prim2SF (Py.float_of_int (Zpos m))
    = S754_finite false mz (Zpos (digits2_pos m) - 53) /\
    Zpos mz = Zpos m * 2 ^ (53 - Zpos (digits2_pos m)).
Proof.
  intros Hm. destruct (binary_normalize_small m Hm) as (mz & Hn & Hv & Hvalid).
  exists mz. split; [ | exact Hv ].
  unfold Py.float_of_int. rewrite Hn. apply Prim2SF_SF2Prim, Hvalid.
Qed.

Lemma Prim2SF_float_of_int_0 : Prim2SF (Py.float_of_int 0) = S754_zero false.
Proof. reflexivity. Qed.

Lemma digits2_pos_le_53 (m : positive) :
  Zpos m < 2 ^ 53 -> Zpos (digits2_pos m) <= 53.
Proof.
  intros Hm. pose proof (digits2_pos_bounds m) as [Hlo _].
  destruct (Z_le_gt_dec (Zpos (digits2_pos m)) 53) as [ | Hgt]; [ assumption | ].
  exfalso.
  assert (2 ^ 53 <= 2 ^ (Zpos (digits2_pos m) - 1)) by (apply Z.pow_le_mono_r; lia).
  lia.
Qed.

(** On integers below [2 ^ 53] the order of binary64 is the order of [Z]. *)
Lemma SFcompare_float_of_int (a b : Z) :
  0 <= a < 2 ^ 53 -> 0 <= b < 2 ^ 53 ->
  SFcompare (Prim2SF (Py.float_of_int a)) (Prim2SF (Py.float_of_int b)) = Some (a ?= b).
Proof.
  intros Ha Hb.
  destruct a as [ | ma | ma]; [ | | lia ]; destruct b as [ | mb | mb]; try lia.
  - reflexivity.
  - destruct (Prim2SF_float_of_int_pos mb) as (mz & -> & _); [ lia | ].
    rewrite Prim2SF_float_of_int_0. reflexivity.
  - destruct (Prim2SF_float_of_int_pos ma) as (mz & -> & _); [ lia | ].
    rewrite Prim2SF_float_of_int_0. reflexivity.
  - destruct (Prim2SF_float_of_int_pos ma) as (mza & -> & Hza); [ lia | ].
    destruct (Prim2SF_float_of_int_pos mb) as (mzb & -> & Hzb); [ lia | ].
    pose proof (digits2_pos_bounds ma) as [Hla Hua].
    pose proof (digits2_pos_bounds mb) as [Hlb Hub].
    pose proof (digits2_pos_le_53 ma (proj2 Ha)) as Hda.
    pose proof (digits2_pos_le_53 mb (proj2 Hb)) as Hdb.
    set (da := Zpos (digits2_pos ma)) in *. clearbody da.
    set (db := Zpos (digits2_pos mb)) in *. clearbody db.
    cbn [SFcompare]. f_equal.
    destruct (Z.compare_spec (da - 53) (db - 53)) as [He | He | He].
    + assert (da = db) by lia. subst db.
      assert (Hpow : 0 < 2 ^ (53 - da)) by (apply Z.pow_pos_nonneg; lia).
      change (Pos.compare_cont Eq mza mzb) with (Zpos mza ?= Zpos mzb).
      rewrite Hza, Hzb.
      destruct (Z.compare_spec (Zpos ma) (Zpos mb)) as [Hc | Hc | Hc].
      * rewrite Hc. apply Z.compare_refl.
      * apply Z.compare_lt_iff. nia.
      * apply Z.compare_gt_iff. nia.
    + symmetry. apply Z.compare_lt_iff.
      assert (2 ^ da <= 2 ^ (db - 1)) by (apply Z.pow_le_mono_r; lia). lia.
    + symmetry. apply Z.compare_gt_iff.
      assert (2 ^ db <= 2 ^ (da - 1)) by (apply Z.pow_le_mono_r; lia). lia.
Qed.

Lemma ltb_float_of_int (a b : Z) :
  0 <= a < 2 ^ 53 -> 0 <= b < 2 ^ 53 ->
  (Py.float_of_int a <? Py.float_of_int b)%float = (a <? b).
Proof.
  intros Ha Hb. rewrite FloatAxioms.ltb_spec. unfold SFltb.
  rewrite SFcompare_float_of_int by assumption. reflexivity.
Qed.

Lemma is_nan_float_of_int (a : Z) :
  0 <= a < 2 ^ 53 -> is_nan (Py.float_of_int a) = false.
Proof.
  intros Ha. unfold is_nan. rewrite FloatAxioms.eqb_spec. unfold SFeqb.
  rewrite SFcompare_float_of_int, Z.compare_refl by assumption. reflexivity.
Qed.

Lemma int_of_float_of_int (n : Z) :
  0 <= n < 2 ^ 53 -> Py.int_of_float (Py.float_of_int n) = inr n.
Proof.
  intros Hn. unfold Py.int_of_float.
  destruct n as [ | m | m]; [ reflexivity | | lia ].
  destruct (Prim2SF_float_of_int_pos m) as (mz & -> & Hmz); [ lia | ].
  pose proof (digits2_pos_le_53 m (proj2 Hn)) as Hd.
  f_equal.
  destruct (Zpos (digits2_pos m) - 53) as [ | p | p] eqn:He; try lia.
  - rewrite Hmz. replace (53 - Zpos (digits2_pos m)) with 0 by lia. lia.
  - rewrite Hmz. replace (53 - Zpos (digits2_pos m)) with (Zpos p) by lia.
    apply Z.div_mul. apply Z.pow_nonzero; lia.
Qed.

(** An integer pixel inside the clip bounds passes [np.clip] unchanged. *)
Lemma clip_float_of_int (n hi : Z) :
  0 <= n <= hi -> hi < 2 ^ 53 ->
  Np.clip (Py.float_of_int n) 0 hi = Py.float_of_int n.
Proof.
  intros Hn Hhi. unfold Np.clip.
  rewrite is_nan_float_of_int by lia.
  rewrite (ltb_float_of_int 0 n) by lia.
  assert (Hm : (if 0 <? n then Py.float_of_int n else Py.float_of_int 0)
               = Py.float_of_int n).
  { destruct (Z.ltb_spec 0 n); [ reflexivity | f_equal; lia ]. }
  rewrite Hm, is_nan_float_of_int, ltb_float_of_int by lia.
  destruct (Z.ltb_spec n hi); [ reflexivity | f_equal; lia ].
Qed.

Lemma clicked_pixel (n hi : Z) :
  0 <= n <= hi -> hi < 2 ^ 53 ->
  Py.int_of_float (Np.clip (Py.float_of_int n) 0 hi) = inr n.
Proof.
  intros Hn Hhi. rewrite clip_float_of_int by assumption.
  apply int_of_float_of_int. lia.
Qed.

(** *** The pixel-to-index mapping of [update_cursor_position] *)

Lemma refresh_keeps_cursor :
  keeps slice_controls (update_image_data ;;; update_crosshairs).
Proof. frame. Qed.

(** The cursor after [update_cursor_position], whether or not the redraw
    that follows the assignment raises. *)
Lemma update_cursor_position_cursor s d view event :
  data s = Some d ->
  inaxes event = Some view ->
  slice_controls (after (update_cursor_position event) s) =
  match Py.int_of_float (Np.clip (xdata event) 0 (Np.dim d 0 - 1)),
        Py.int_of_float (Np.clip (ydata event) 0 (Np.dim d 1 - 1)) with
  | inr x, inr y => clicked_cursor d view x y (slice_controls s)
  | _, _ => slice_controls s
  end.
Proof.
  intros Hd Hv. unfold update_cursor_position.
  rewrite after_bind. cbn [outcome after read fst snd]. rewrite Hd, Hv.
  rewrite after_bind. cbn [outcome after lift fst snd].
  destruct (Py.int_of_float (Np.clip (xdata event) 0 (Np.dim d 0 - 1))) as [e | x];
    [ reflexivity | ].
  rewrite after_bind. cbn [outcome after lift fst snd].
  destruct (Py.int_of_float (Np.clip (ydata event) 0 (Np.dim d 1 - 1))) as [e | y];
    [ reflexivity | ].
  pose proof refresh_keeps_cursor as K.
  remember (update_image_data ;;; update_crosshairs) as refresh.
  destruct view;
    unfold after, bind, modify, set_var, set_entry; simpl;
    match goal with
    | |- context [refresh ?s'] => change (snd (refresh s')) with (after refresh s')
    end;
    rewrite K; reflexivity.
Qed.

Lemma on_click_cursor s d view event :
  data s = Some d ->
  inaxes event = Some view ->
  slice_controls (after (on_click event) s) =
  slice_controls (after (update_cursor_position event) (set_mouse_pressed true s)).
Proof.
  intros Hd Hv. unfold on_click.
  rewrite after_bind. cbn [outcome after read fst snd]. rewrite Hd, Hv.
  rewrite after_bind. reflexivity.
Qed.

Lemma on_motion_pressed s d view event :
  data s = Some d ->
  inaxes event = Some view ->
  mouse_pressed s = true ->
  after (on_motion event) s = after (update_cursor_position event) s.
Proof.
  intros Hd Hv Hp. unfold on_motion.
  rewrite after_bind. cbn [outcome after read fst snd]. rewrite Hd, Hv.
  rewrite after_bind. cbn [outcome after read fst snd]. rewrite Hp. reflexivity.
Qed.

Lemma on_motion_hover s d view event :
  data s = Some d ->
  inaxes event = Some view ->
  mouse_pressed s = false ->
  after (on_motion event) s = after (update_temp_crosshairs event) s.
Proof.
  intros Hd Hv Hp. unfold on_motion.
  rewrite after_bind. cbn [outcome after read fst snd]. rewrite Hd, Hv.
  rewrite after_bind. cbn [outcome after read fst snd]. rewrite Hp. reflexivity.
Qed.

Lemma dim_of_shape d nx ny nz :
  Np.shape d = (nx, ny, nz) ->
  Np.dim d 0 = nx /\ Np.dim d 1 = ny /\ Np.dim d 2 = nz.
Proof. intros H. unfold Np.dim. rewrite H. auto. Qed.

(** ** Clicks on a view *)

(** C4. In a volume of shape (10, 20, 30) a click on the axial view at
    pixel (3, 5) sets the cursor to x = 3 and y = 14 = 20 - 5 - 1 and
    leaves z as it was, whatever the voxels and the cursor before. *)
Theorem axial_click_10_20_30 (s : BrainViewer) (d : Np.ndarray) :
  data s = Some d ->
  Np.shape d = (10, 20, 30) ->
  let s' := after (on_click (mk_event (Some axial) 3 5)) s in
  (slice_controls s').[sagittal] = 3 /\
  (slice_controls s').[coronal] = 14 /\
  (slice_controls s').[axial] = (slice_controls s).[axial].
Proof.
  intros Hd Hshape s'. subst s'.
  destruct (dim_of_shape _ _ _ _ Hshape) as (H0 & H1 & _).
  rewrite (on_click_cursor s d axial) by (assumption || reflexivity).
  rewrite (update_cursor_position_cursor _ d axial) by (assumption || reflexivity).
  cbn [xdata ydata]. rewrite H0, H1.
  replace (Py.int_of_float (Np.clip 3 0 (10 - 1))) with (@inr Py.exn Z 3)
    by (vm_compute; reflexivity).
  replace (Py.int_of_float (Np.clip 5 0 (20 - 1))) with (@inr Py.exn Z 5)
    by (vm_compute; reflexivity).
  unfold clicked_cursor. rewrite H1. cbn. auto.
Qed.

Lemma axial_click_10_20_30_witness :
  let s' := after (on_click (mk_event (Some axial) 3 5)) opened_10_20_30 in
  (slice_controls s').[sagittal] = 3 /\
  (slice_controls s').[coronal] = 14 /\
  (slice_controls s').[axial] = 14.
Proof.
  exact (axial_click_10_20_30 opened_10_20_30 (blank 10 20 30) eq_refl eq_refl).
Defined.

Lemma update_cursor_position_fixed_axis s event view :
  inaxes event = Some view ->
  (slice_controls (after (update_cursor_position event) s)).[view] =
  (slice_controls s).[view].
Proof.
  intros Hv. destruct (data s) as [d | ] eqn:Hd.
  - rewrite (update_cursor_position_cursor s d view) by assumption.
    destruct (Py.int_of_float _) as [e | x]; [ reflexivity | ].
    destruct (Py.int_of_float _) as [e | y]; [ reflexivity | ].
    destruct view; reflexivity.
  - unfold update_cursor_position.
    rewrite after_bind. cbn [outcome after read fst snd]. rewrite Hd, Hv.
    reflexivity.
Qed.

(** C6. A click or a drag on a view leaves the slice variable of the one
    axis that view does not address (z for axial, x for sagittal, y for
    coronal, that is the variable named after the view) as it was. *)
Theorem click_keeps_fixed_axis (s : BrainViewer) (event : MouseEvent) (view : plane) :
  inaxes event = Some view ->
  (slice_controls (after (update_cursor_position event) s)).[view] =
    (slice_controls s).[view] /\
  (slice_controls (after (on_click event) s)).[view] = (slice_controls s).[view] /\
  (slice_controls (after (on_motion event) s)).[view] = (slice_controls s).[view].
Proof.
  intros Hv. split; [ | split ].
  - apply update_cursor_position_fixed_axis, Hv.
  - destruct (data s) as [d | ] eqn:Hd.
    + rewrite (on_click_cursor s d view) by assumption.
      apply (update_cursor_position_fixed_axis (set_mouse_pressed true s)), Hv.
    + unfold on_click.
      rewrite after_bind. cbn [outcome after read fst snd]. rewrite Hd, Hv.
      reflexivity.
  - destruct (data s) as [d | ] eqn:Hd.
    + destruct (mouse_pressed s) eqn:Hp.
      * rewrite (on_motion_pressed s d view) by assumption.
        apply update_cursor_position_fixed_axis, Hv.
      * rewrite (on_motion_hover s d view) by assumption.
        rewrite update_temp_crosshairs_keeps_cursor. reflexivity.
    + unfold on_motion.
      rewrite after_bind. cbn [outcome after read fst snd]. rewrite Hd, Hv.
      reflexivity.
Qed.

Lemma click_keeps_fixed_axis_witness :
  let event := mk_event (Some sagittal) 12 7 in
  (slice_controls (after (update_cursor_position event) opened_10_20_30)).[sagittal] = 4 /\
  (slice_controls (after (on_click event) opened_10_20_30)).[sagittal] = 4 /\
  (slice_controls (after (on_motion event) opened_10_20_30)).[sagittal] = 4.
Proof.
  exact (click_keeps_fixed_axis opened_10_20_30 (mk_event (Some sagittal) 12 7)
           sagittal eq_refl).
Defined.

(** *** The round trip through a view whose slice the clip bounds cover *)

(** Once the plots exist, [update_crosshairs] puts the crosshair of the
    axial view at [(x, Ny - y - 1)], that of the sagittal view at
    [(Ny - y - 1, z)] and that of the coronal view at [(x, z)]. *)
Theorem update_crosshairs_pixel (s : BrainViewer) (d : Np.ndarray) (view : plane) :
  data s = Some d ->
  (forall v, (crosshair_lines s).[v] <> None) ->
  crosshair_pixel view (after update_crosshairs s) =
  Some (crosshair_of d view (slice_controls s)).
Proof.
  intros Hd Hplots.
  pose proof (Hplots axial) as Ha. pose proof (Hplots sagittal) as Hs.
  pose proof (Hplots coronal) as Hc.
  unfold update_crosshairs, set_crosshair, crosshair_pixel, after, bind, read, modify.
  rewrite Hd.
  destruct (crosshair_lines s) as [[la | ] [ls | ] [lc | ]]; cbn in Ha, Hs, Hc;
    try contradiction.
  destruct view; reflexivity.
Qed.

Lemma update_crosshairs_pixel_witness :
  crosshair_pixel sagittal (after update_crosshairs cursor_5_3_25) = Some (16, 25).
Proof.
  assert (Hd : data cursor_5_3_25 = Some (blank 10 20 30)) by (vm_compute; reflexivity).
  assert (Hp : forall v, (crosshair_lines cursor_5_3_25).[v] <> None)
    by (intros v; destruct v; vm_compute; discriminate).
  pose proof (update_crosshairs_pixel cursor_5_3_25 (blank 10 20 30) sagittal Hd Hp) as W.
  vm_compute in W |- *. exact W.
Defined.

(** The part of the click and crosshair inverse law the code does keep: for
    an in-range cursor and a view whose displayed slice is no wider than
    [shape[0]] and no taller than [shape[1]] (always so for the axial
    view), a click exactly on the crosshair of that view gives the cursor
    back. *)
Theorem round_trip_within_clip_bounds (s : BrainViewer) (d : Np.ndarray) (view : plane) :
  data s = Some d ->
  Np.dim d 0 <= 2 ^ 53 ->
  Np.dim d 1 <= 2 ^ 53 ->
  in_range d (slice_controls s) ->
  clip_covers d view ->
  forall px py,
    crosshair_of d view (slice_controls s) = (px, py) ->
    slice_controls (after (update_cursor_position (event_at view px py)) s) =
    slice_controls s.
Proof.
  intros Hd H0 H1 Hin Hcov px py Hpixel. revert Hpixel.
  pose proof (Hin axial) as Hz. pose proof (Hin sagittal) as Hx.
  pose proof (Hin coronal) as Hy. cbn [dim_index] in Hx, Hy, Hz.
  destruct (slice_controls s) as [z x y] eqn:Hcursor. cbn [lookup at_axial at_sagittal at_coronal] in *.
  destruct view; cbn [crosshair_of lookup at_axial at_sagittal at_coronal clip_covers] in *;
    intros [= <- <-];
    match goal with
    | |- context [update_cursor_position ?ev] =>
        rewrite (update_cursor_position_cursor s d _ ev Hd eq_refl)
    end;
    cbn [event_at xdata ydata];
    rewrite !clicked_pixel by lia;
    rewrite Hcursor; unfold clicked_cursor; cbn [assign at_axial at_sagittal at_coronal];
    f_equal; lia.
Qed.

Lemma in_rangeb_sound d cursor : in_rangeb d cursor = true -> in_range d cursor.
Proof.
  unfold in_rangeb, in_range. intros H p.
  repeat (apply andb_prop in H; destruct H as [H ?]).
  destruct p; lia.
Qed.

Lemma round_trip_within_clip_bounds_witness :
  slice_controls (after (update_cursor_position (event_at axial 5 16)) cursor_5_3_25) =
  slice_controls cursor_5_3_25.
Proof.
  assert (Hd : data cursor_5_3_25 = Some (blank 10 20 30)) by (vm_compute; reflexivity).
  assert (H0 : Np.dim (blank 10 20 30) 0 <= 2 ^ 53) by (vm_compute; discriminate).
  assert (H1 : Np.dim (blank 10 20 30) 1 <= 2 ^ 53) by (vm_compute; discriminate).
  assert (Hin : in_range (blank 10 20 30) (slice_controls cursor_5_3_25))
    by (apply in_rangeb_sound; vm_compute; reflexivity).
  assert (Hpx : crosshair_of (blank 10 20 30) axial (slice_controls cursor_5_3_25) = (5, 16))
    by (vm_compute; reflexivity).
  exact (round_trip_within_clip_bounds cursor_5_3_25 (blank 10 20 30) axial
           Hd H0 H1 Hin I 5 16 Hpx).
Defined.

(** ** Text entries *)

(** What [int] makes of some texts: white space around the digits, single
    underscores between them and a sign are read; so are padding with a
    no-break space and the digits of other scripts; a file separator is no
    white space in an ASCII text; a literal of more than 4300 digits is
    refused. *)
Lemma int_of_str_examples :
  Py.int_of_str (Py.codes " 12 ") = Some 12 /\
  Py.int_of_str (Py.codes "1_000") = Some 1000 /\
  Py.int_of_str (Py.codes "-7") = Some (-7) /\
  Py.int_of_str [0xa0; 53]%N = Some 5 /\
  Py.int_of_str [0x663]%N = Some 3 /\
  Py.int_of_str [0x1c; 56]%N = None /\
  Py.int_of_str (Py.codes "abc") = None /\
  Py.int_of_str (Py.codes "3.5") = None /\
  Py.int_of_str (Py.codes "1__0") = None /\
  Py.int_of_str [] = None /\
  Py.int_of_str (repeat 48%N 4300) = Some 0 /\
  Py.int_of_str (repeat 48%N 4301) = None.
Proof. vm_compute. repeat split. Qed.

(** C5. When the text of an entry does not parse as an integer, committing
    it ends normally, writes the value of the slice variable back into
    that entry and changes nothing else: the cursor and every other field
    of the viewer are as before. *)
Theorem entry_parse_failure_reverts (s : BrainViewer) (p : plane) :
  Py.int_of_str (slice_entries s).[p] = None ->
  let s' := after (on_entry_change p) s in
  outcome (on_entry_change p) s = inr tt /\
  s' = set_slice_entries (assign (slice_entries s) p (Py.str (slice_controls s).[p])) s /\
  slice_controls s' = slice_controls s /\
  (slice_entries s').[p] = Py.str (slice_controls s).[p].
Proof.
  intros Hparse s'.
  assert (E : on_entry_change p s =
              (inr tt, set_slice_entries
                         (assign (slice_entries s) p (Py.str (slice_controls s).[p])) s)).
  { unfold on_entry_change, try_except_ValueError, bind, read.
    rewrite Hparse. reflexivity. }
  subst s'. unfold after, outcome. rewrite E. cbn [fst snd].
  repeat split. destruct p; reflexivity.
Qed.

Lemma entry_parse_failure_reverts_witness :
  (slice_controls coronal_7_typed_abc).[coronal] = 7 /\
  (slice_entries coronal_7_typed_abc).[coronal] = Py.codes "abc" /\
  let s' := after (on_entry_change coronal) coronal_7_typed_abc in
  outcome (on_entry_change coronal) coronal_7_typed_abc = inr tt /\
  s' = set_slice_entries
         (assign (slice_entries coronal_7_typed_abc) coronal (Py.codes "7"))
         coronal_7_typed_abc /\
  slice_controls s' = slice_controls coronal_7_typed_abc /\
  (slice_entries s').[coronal] = Py.codes "7".
Proof.
  split; [ reflexivity | split; [ reflexivity | ] ].
  exact (entry_parse_failure_reverts coronal_7_typed_abc coronal eq_refl).
Defined.

(** The slice variable after an entry that parses is committed, with the
    bound the handler reads through [dim_index]. *)
Lemma on_entry_change_cursor (s : BrainViewer) (d : Np.ndarray) (p : plane) (v : Z) :
  data s = Some d ->
  Py.int_of_str (slice_entries s).[p] = Some v ->
  (slice_controls (after (on_entry_change p) s)).[p] =
  Z.max 0 (Z.min v (Np.dim d (dim_index p) - 1)).
Proof.
  intros Hd Hparse. set (max_val := Np.dim d (dim_index p) - 1).
  unfold on_entry_change.
  rewrite (try_except_ValueError_observe (fun s => (slice_controls s).[p]))
    by (apply (keeps_map slice_controls (fun c => c.[p])); unfold set_entry; frame).
  rewrite after_bind. cbn [outcome after read fst snd]. rewrite Hparse.
  rewrite after_bind. cbn [outcome after read fst snd]. rewrite Hd.
  rewrite after_bind.
  assert (K : keeps (fun s => (slice_controls s).[p])
                (set_entry p (Py.str (Z.max 0 (Z.min v max_val))) ;;;
                 update_image_data ;;; update_crosshairs)).
  { apply (keeps_map slice_controls (fun c => c.[p])). unfold set_entry. frame. }
  cbn [outcome set_var modify fst]. fold max_val. rewrite K.
  destruct p; reflexivity.
Qed.

(** The text-entry half of the clamping invariant. In a volume of shape
    [(Nx, Ny, Nz)], committing an entry whose text [int] reads as [v]
    stores [max(0, min(v, N - 1))] in the slice variable of that entry,
    where [N] is [Nx] for the sagittal entry, [Ny] for the coronal one and
    [Nz] for the axial one: a value of [[0, N - 1]] whenever [N >= 1],
    also if the redraw that follows raises. *)
Theorem entry_commit_clamps (s : BrainViewer) (d : Np.ndarray) (p : plane)
    (v nx ny nz : Z) :
  data s = Some d ->
  Np.shape d = (nx, ny, nz) ->
  Py.int_of_str (slice_entries s).[p] = Some v ->
  let max_val := match p with
                 | sagittal => nx - 1
                 | coronal => ny - 1
                 | axial => nz - 1
                 end in
  let s' := after (on_entry_change p) s in
  (slice_controls s').[p] = Z.max 0 (Z.min v max_val) /\
  (0 <= max_val -> 0 <= (slice_controls s').[p] <= max_val).
Proof.
  intros Hd Hshape Hparse max_val s'. subst s'.
  destruct (dim_of_shape _ _ _ _ Hshape) as (H0 & H1 & H2).
  rewrite (on_entry_change_cursor s d p v Hd Hparse).
  assert (E : Np.dim d (dim_index p) - 1 = max_val)
    by (subst max_val; destruct p; cbn [dim_index]; congruence).
  rewrite E. split; [ reflexivity | lia ].
Qed.

Lemma entry_commit_clamps_witness :
  let s := run [TypeEntry coronal (Py.codes "40")] opened_10_20_30 in
  let s' := after (on_entry_change coronal) s in
  (slice_controls s').[coronal] = 19 /\
  (0 <= 19 -> 0 <= (slice_controls s').[coronal] <= 19).
Proof.
  intros s s'.
  assert (Hd : data s = Some (blank 10 20 30)) by (vm_compute; reflexivity).
  assert (Hv : Py.int_of_str (slice_entries s).[coronal] = Some 40)
    by (vm_compute; reflexivity).
  exact (entry_commit_clamps s (blank 10 20 30) coronal 40 10 20 30 Hd eq_refl Hv).
Defined.

(** ** Where the click bounds go wrong *)

(** C1 fails on the code. With shape (10, 20, 30) and the cursor at
    (5, 3, 25) the sagittal crosshair is at pixel (16, 25); a click at
    that very pixel of the sagittal view clips 16 to [shape[0] - 1 = 9]
    and 25 to [shape[1] - 1 = 19], so y becomes 10 and z becomes 19. The
    same cursor survives the round trip through the axial view. *)
Theorem sagittal_round_trip_broken :
  slice_controls cursor_5_3_25 =
    {| at_axial := 25; at_sagittal := 5; at_coronal := 3 |} /\
  crosshair_pixel sagittal cursor_5_3_25 = Some (16, 25) /\
  slice_controls (after (update_cursor_position (event_at sagittal 16 25)) cursor_5_3_25) =
    {| at_axial := 19; at_sagittal := 5; at_coronal := 10 |} /\
  crosshair_pixel axial cursor_5_3_25 = Some (5, 16) /\
  slice_controls (after (update_cursor_position (event_at axial 5 16)) cursor_5_3_25) =
    slice_controls cursor_5_3_25.
Proof. vm_compute. repeat split. Qed.

(** C2 fails on the code. In the volume of shape (10, 20, 30) a click on
    the coronal view at pixel (3, 25), inside the displayed slice, asks
    for z = 25, which is in range; the code clips the pixel row to
    [shape[1] - 1 = 19] and stores 19, not [max(0, min(25, 29))]. *)
Theorem coronal_click_clamped_to_wrong_axis :
  let s' := after (on_click (event_at coronal 3 25)) opened_10_20_30 in
  Np.dim (blank 10 20 30) (dim_index axial) = 30 /\
  (slice_controls s').[axial] = 19 /\
  Z.max 0 (Z.min 25 (30 - 1)) = 25.
Proof. vm_compute. repeat split. Qed.

(** C9 fails on the code. The click above stores z = 15 although the
    volume has 5 axial slices, and the slice extraction of the redraw
    raises [IndexError], then and at every later redraw. *)
Theorem axial_index_out_of_bounds :
  reachable coronal_click_below_slice /\
  data coronal_click_below_slice = Some (blank 10 20 5) /\
  (slice_controls coronal_click_below_slice).[axial] = 15 /\
  Np.slice_z (blank 10 20 5) 15 = inl Py.IndexError /\
  outcome update_image_data coronal_click_below_slice = inl Py.IndexError.
Proof.
  split.
  - unfold coronal_click_below_slice, run. cbn [fold_left].
    do 2 apply reachable_step. apply reachable_init.
  - vm_compute. repeat split.
Qed.

(** ** The hover overlay *)

(** C8 fails on the code in its second half. Hovering does leave the
    cursor alone, but [on_axes_leave] only redraws: the hover lines of the
    view the pointer has left stay visible where they were. *)
Theorem hover_overlay_stays_after_leave :
  mouse_pressed opened_10_20_30 = false /\
  slice_controls hovered_then_left = slice_controls opened_10_20_30 /\
  (temp_lines hovered_then_left).[axial] =
    Some {| vline := mk_line true 3%float; hline := mk_line true 5%float |}.
Proof. vm_compute. repeat split. Qed.

(** Hovering never moves the cursor. *)
Lemma hover_keeps_cursor (s : BrainViewer) (event : MouseEvent) :
  mouse_pressed s = false ->
  slice_controls (after (on_motion event) s) = slice_controls s.
Proof.
  intros Hp. unfold on_motion.
  rewrite after_bind. cbn [outcome after read fst snd].
  destruct (inaxes event) as [view | ]; [ | reflexivity ].
  destruct (data s) as [d | ]; [ | reflexivity ].
  rewrite after_bind. cbn [outcome after read fst snd]. rewrite Hp.
  apply update_temp_crosshairs_keeps_cursor.
Qed.

(** A motion event with no button held changes nothing but the hover
    lines: the cursor, the entries, the images and the crosshairs stay. *)
Theorem hover_only_touches_overlay (s : BrainViewer) (event : MouseEvent) :
  mouse_pressed s = false ->
  exists tl, after (on_motion event) s = set_temp_lines tl s.
Proof.
  intros Hp.
  unfold on_motion, update_temp_crosshairs, hide_temp, show_temp,
    after, bind, read, modify, raise, ret.
  destruct s as [d fn cf sc se bv cv mp mo ip cl [ta ts tc]].
  cbn in Hp. subst mp. cbn.
  destruct (inaxes event) as [view | ]; [ | eexists; reflexivity ].
  destruct d as [d | ]; [ | eexists; reflexivity ].
  destruct ta as [ta | ]; [ | eexists; reflexivity ].
  destruct ts as [ts | ]; [ | cbn; eexists; reflexivity ].
  destruct tc as [tc | ]; [ | cbn; eexists; reflexivity ].
  destruct view; cbn; eexists; reflexivity.
Qed.

Lemma hover_only_touches_overlay_witness :
  exists tl,
    after (on_motion (event_at coronal 2 7)) opened_10_20_30 =
    set_temp_lines tl opened_10_20_30.
Proof.
  assert (Hp : mouse_pressed opened_10_20_30 = false) by (vm_compute; reflexivity).
  exact (hover_only_touches_overlay opened_10_20_30 (event_at coronal 2 7) Hp).
Defined.

(** ** The display range *)

Lemma fold_minimum_In vs v : In (fold_left Np.minimum vs v) (v :: vs).
Proof.
  revert v. induction vs as [ | w vs IH]; intros v; cbn [fold_left].
  - left. reflexivity.
  - specialize (IH (Np.minimum v w)).
    destruct IH as [IH | IH].
    + unfold Np.minimum in IH at 1.
      destruct ((v <=? w)%float || is_nan v); [ left | right; left ]; exact IH.
    + right; right; exact IH.
Qed.

Lemma fold_maximum_In vs v : In (fold_left Np.maximum vs v) (v :: vs).
Proof.
  revert v. induction vs as [ | w vs IH]; intros v; cbn [fold_left].
  - left. reflexivity.
  - specialize (IH (Np.maximum v w)).
    destruct IH as [IH | IH].
    + unfold Np.maximum in IH at 1.
      destruct ((w <=? v)%float || is_nan v); [ left | right; left ]; exact IH.
    + right; right; exact IH.
Qed.

(** On a volume that is not empty both reductions return one of its voxels. *)
Lemma amin_amax_defined d :
  Np.voxels d <> [] ->
  exists data_min data_max,
    Np.amin d = inr data_min /\ Np.amax d = inr data_max /\
    In data_min (Np.voxels d) /\ In data_max (Np.voxels d).
Proof.
  intros Hne. unfold Np.amin, Np.amax.
  destruct (Np.voxels d) as [ | v vs]; [ contradiction | ].
  exists (fold_left Np.minimum vs v), (fold_left Np.maximum vs v).
  repeat split; [ apply fold_minimum_In | apply fold_maximum_In ].
Qed.

Lemma get_slice_display_params_eq s d data_min data_max :
  data s = Some d ->
  Np.amin d = inr data_min ->
  Np.amax d = inr data_max ->
  get_slice_display_params s =
  (inr (computeRange data_min data_max (brightness_var s) (contrast_var s)), s).
Proof.
  intros Hd Hmin Hmax.
  unfold get_slice_display_params, bind, read, lift, ret.
  rewrite Hd, Hmin, Hmax. reflexivity.
Qed.

(** C3. For every loaded volume that has a voxel and every brightness and
    contrast, [get_slice_display_params] ends normally, changes nothing and
    returns [vmin = dataMin + (brightness / 100) * (dataMax - dataMin)] and
    [vmax = dataMax * ((contrast + 100) / 100)], where [dataMin] and
    [dataMax] are what [np.min] and [np.max] return, two voxels of the
    volume; with brightness 50, contrast 0, [dataMin = 0] and
    [dataMax = 200] that is [vmin = 100] and [vmax = 200]. *)
Theorem display_range_formula :
  (forall (s : BrainViewer) (d : Np.ndarray),
     data s = Some d ->
     Np.voxels d <> [] ->
     exists data_min data_max,
       Np.amin d = inr data_min /\ Np.amax d = inr data_max /\
       In data_min (Np.voxels d) /\ In data_max (Np.voxels d) /\
       get_slice_display_params s =
       (inr (computeRange data_min data_max (brightness_var s) (contrast_var s)), s)) /\
  computeRange 0 200 50 0 = {| vmin := 100; vmax := 200 |}.
Proof.
  split.
  - intros s d Hd Hne.
    destruct (amin_amax_defined d Hne) as (mn & mx & Hmin & Hmax & Imin & Imax).
    exists mn, mx. repeat split; try assumption.
    apply (get_slice_display_params_eq s d); assumption.
  - vm_compute. reflexivity.
Qed.

Lemma display_range_formula_witness :
  data brightness_50 = Some ramp_0_200 /\
  brightness_var brightness_50 = 50%float /\
  contrast_var brightness_50 = 0%float /\
  Np.amin ramp_0_200 = inr 0%float /\
  Np.amax ramp_0_200 = inr 200%float /\
  get_slice_display_params brightness_50 =
    (inr {| vmin := 100; vmax := 200 |}, brightness_50).
Proof.
  repeat (split; [ vm_compute; reflexivity | ]).
  destruct (proj1 display_range_formula brightness_50 ramp_0_200 eq_refl)
    as (mn & mx & Hmin & Hmax & _ & _ & E).
  - discriminate.
  - rewrite E. vm_compute in Hmin, Hmax.
    injection Hmin as <-. injection Hmax as <-.
    vm_compute. reflexivity.
Defined.

(** ** Binary64 facts behind the neutral display range *)

Lemma shr_low_zeros (m : positive) (e : Z) :
  shr (shr_record_of_loc (Zpos (4503599627370496 * m)) loc_Exact) e 52 =
  ({| shr_m := Zpos m; shr_r := false; shr_s := false |}, e + 52).
Proof. reflexivity. Qed.

Lemma digits2_low_zeros (m : positive) :
  Zpos (digits2_pos (4503599627370496 * m)) = Zpos (digits2_pos m) + 52.
Proof. cbn [Pos.mul digits2_pos]. lia. Qed.

Lemma SFmul_one_r (x : spec_float) :
  valid_binary x = true -> SF64mul x (Prim2SF 1) = x.
Proof.
  change (Prim2SF 1) with (S754_finite false 4503599627370496 (-52)).
  destruct x as [sx | sx | | sx m e]; intros Hvalid;
    try (destruct sx; reflexivity); try reflexivity.
  cbn [valid_binary] in Hvalid. unfold bounded, canonical_mantissa in Hvalid.
  apply andb_prop in Hvalid. destruct Hvalid as [Hcanon Hbound].
  apply Z.eqb_eq in Hcanon.
  unfold SF64mul, SFmul, binary_round_aux, shr_fexp.
  rewrite xorb_false_r, (Pos.mul_comm m). unfold Zdigits2 at 1.
  rewrite digits2_low_zeros.
  replace (Z.pos (digits2_pos m) + 52 + (e + -52)) with (Z.pos (digits2_pos m) + e) by lia.
  rewrite Hcanon.
  replace (e - (e + -52)) with 52 by lia.
  rewrite shr_low_zeros.
  cbn [shr_m loc_of_shr_record round_nearest_even Zdigits2].
  replace (e + -52 + 52) with e by lia.
  rewrite Hcanon, Z.sub_diag. cbn [shr shr_record_of_loc shr_m].
  rewrite Hbound. reflexivity.
Qed.

Lemma mul_one_r (x : float) : (x * 1)%float = x.
Proof.
  apply Prim2SF_inj. rewrite mul_spec. apply SFmul_one_r, Prim2SF_valid.
Qed.

Lemma finite_sub (a b : float) :
  finite (a - b) = true -> finite a = true /\ finite b = true.
Proof.
  unfold finite. rewrite sub_spec.
  destruct (Prim2SF a) as [sa | sa | | sa ma ea], (Prim2SF b) as [sb | sb | | sb mb eb];
    try (intros _; split; reflexivity);
    try (destruct sa); try (destruct sb); cbn; intros H; discriminate H.
Qed.

Lemma zero_mul_finite (r : float) :
  finite r = true -> exists sz, Prim2SF (0 * r) = S754_zero sz.
Proof.
  unfold finite. rewrite mul_spec.
  change (Prim2SF 0) with (S754_zero false).
  destruct (Prim2SF r) as [sr | sr | | sr m e]; try discriminate; intros _.
  - exists (xorb false sr). reflexivity.
  - exists (xorb false sr). reflexivity.
Qed.

Lemma SFcompare_finite_refl s m e :
  SFcompare (S754_finite s m e) (S754_finite s m e) = Some Eq.
Proof.
  cbn [SFcompare]. rewrite Z.compare_refl, Pos.compare_cont_refl.
  destruct s; reflexivity.
Qed.

Lemma add_zero_eqb (x z : float) (sz : bool) :
  finite x = true -> Prim2SF z = S754_zero sz -> (x + z =? x)%float = true.
Proof.
  unfold finite. intros Hx Hz. rewrite eqb_spec, add_spec, Hz.
  destruct (Prim2SF x) as [sx | sx | | sx m e]; try discriminate.
  - destruct sx, sz; reflexivity.
  - unfold SF64add, SFadd, SFeqb. rewrite SFcompare_finite_refl. reflexivity.
Qed.

(** C7, as the code has it. With brightness 0 and contrast 0, and a volume
    whose intensity span [dataMax - dataMin] is a finite float,
    [get_slice_display_params] returns a [vmin] that is numerically equal
    to [dataMin] and a [vmax] that is [dataMax]. *)
Theorem neutral_display_range (s : BrainViewer) (d : Np.ndarray)
    (data_min data_max : float) :
  data s = Some d ->
  Np.amin d = inr data_min ->
  Np.amax d = inr data_max ->
  brightness_var s = 0%float ->
  contrast_var s = 0%float ->
  finite (data_max - data_min) = true ->
  exists p,
    get_slice_display_params s = (inr p, s) /\
    (vmin p =? data_min)%float = true /\
    vmax p = data_max.
Proof.
  intros Hd Hmin Hmax Hb Hc Hspan.
  exists (computeRange data_min data_max 0 0).
  split; [ | split ].
  - rewrite (get_slice_display_params_eq s d data_min data_max) by assumption.
    rewrite Hb, Hc. reflexivity.
  - unfold computeRange. cbn [vmin].
    change (0 / 100)%float with 0%float.
    destruct (zero_mul_finite _ Hspan) as [sz Hz].
    apply (add_zero_eqb _ _ sz); [ | exact Hz ].
    apply (finite_sub data_max data_min), Hspan.
  - unfold computeRange. cbn [vmax].
    change ((0 + 100) / 100)%float with 1%float.
    apply mul_one_r.
Qed.

Lemma neutral_display_range_witness :
  let s := run [SelectFile "ramp.nii" (inr ramp_0_200)] init in
  exists p,
    get_slice_display_params s = (inr p, s) /\
    (vmin p =? 0)%float = true /\
    vmax p = 200%float.
Proof.
  exact (neutral_display_range
           (run [SelectFile "ramp.nii" (inr ramp_0_200)] init) ramp_0_200 0 200
           eq_refl eq_refl eq_refl eq_refl eq_refl eq_refl).
Defined.

(** C7 as stated fails on such a volume: with brightness 0 and contrast 0
    the span is infinite, zero times infinity is [nan], and [vmin] is
    [nan], not [dataMin]. *)
Lemma neutral_display_range_overflow :
  let s := run [SelectFile "saturated.nii" (inr saturated)] init in
  data s = Some saturated /\
  brightness_var s = 0%float /\
  contrast_var s = 0%float /\
  Np.amin saturated = inr (-0x1p+1023)%float /\
  Np.amax saturated = inr 0x1p+1023%float /\
  (0x1p+1023 - -0x1p+1023)%float = infinity /\
  outcome get_slice_display_params s = inr {| vmin := nan; vmax := 0x1p+1023 |} /\
  (nan =? -0x1p+1023)%float = false /\
  nan <> (-0x1p+1023)%float.
Proof.
  repeat (split; [ vm_compute; reflexivity | ]).
  intros H. apply (f_equal is_nan) in H. vm_compute in H. discriminate H.
Qed.

(** ** Opening a volume *)

Lemma configure_scale_layout var lo hi children :
  map kind (configure_scale var lo hi children) = map kind children.
Proof.
  induction children as [ | [ | | | v a b] rest IH]; cbn [configure_scale map kind];
    try (rewrite IH; reflexivity); try reflexivity.
  destruct (tkvar_eqb v var); cbn [map kind]; [ | rewrite IH ]; reflexivity.
Qed.

#[export] Hint Resolve configure_scale_layout : frame.

Lemma update_image_data_keeps_layout : keeps layout update_image_data.
Proof. apply update_image_data_keeps; reflexivity. Qed.

Lemma update_crosshairs_keeps_layout : keeps layout update_crosshairs.
Proof. apply update_crosshairs_keeps; reflexivity. Qed.

Lemma update_temp_crosshairs_keeps_layout event :
  keeps layout (update_temp_crosshairs event).
Proof. apply update_temp_crosshairs_keeps; reflexivity. Qed.

Lemma initialize_plots_keeps_layout : keeps layout initialize_plots.
Proof. apply initialize_plots_keeps; reflexivity. Qed.

#[export] Hint Resolve update_image_data_keeps_layout update_crosshairs_keeps_layout
  update_temp_crosshairs_keeps_layout initialize_plots_keeps_layout : frame.

Lemma initialize_slice_positions_keeps_layout : keeps layout initialize_slice_positions.
Proof.
  unfold initialize_slice_positions, initialize_slice_position, set_var, set_entry.
  frame; apply keeps_modify; intros s; unfold layout; cbn [control_frame set_control_frame];
    apply configure_scale_layout.
Qed.

Lemma update_cursor_position_keeps_layout event :
  keeps layout (update_cursor_position event).
Proof. unfold update_cursor_position, set_var, set_entry. frame. Qed.

#[export] Hint Resolve initialize_slice_positions_keeps_layout
  update_cursor_position_keeps_layout : frame.

(** No input changes which widgets the control frame holds, nor the
    variable a scale is bound to. *)
Lemma dispatch_keeps_layout i : keeps layout (dispatch i).
Proof.
  destruct i; unfold dispatch, load_nifti, on_slider_change, on_entry_change,
    on_click, on_motion, on_release, on_axes_enter, on_axes_leave, update_display,
    set_var, set_entry; frame.
Qed.

Lemma reachable_layout s : reachable s -> layout s = map kind create_controls.
Proof.
  induction 1 as [ | s i _ IH].
  - reflexivity.
  - unfold step. rewrite dispatch_keeps_layout. exact IH.
Qed.

Lemma initialize_slice_positions_eq s d :
  data s = Some d ->
  initialize_slice_positions s = (inr tt, centred d s).
Proof.
  intros Hd. unfold initialize_slice_positions, bind, read. rewrite Hd.
  reflexivity.
Qed.

(** What [load_nifti] leaves when a file was chosen and the loader
    returned a volume: the centred viewer, redrawn by [initialize_plots]
    (whose failure, if any, the handler reports and drops). *)
Lemma load_nifti_after s c name d :
  after (load_nifti (String c name) (inr d)) s =
  after initialize_plots
    (centred d (set_data (Some d) (set_filename (Some (String c name)) s))).
Proof.
  unfold load_nifti, try_except_Exception, after.
  unfold bind at 1. unfold modify at 1.
  unfold bind at 1. unfold lift at 1.
  unfold bind at 1. unfold modify at 1.
  unfold bind at 1.
  rewrite (initialize_slice_positions_eq _ d) by reflexivity.
  destruct (initialize_plots _) as [[e | []] s']; reflexivity.
Qed.

Lemma scale_range_centred children mx_a mx_s mx_c p :
  map kind children = map kind create_controls ->
  scale_range (SliceVar p)
    (configure_scale (SliceVar coronal) 0 mx_c
       (configure_scale (SliceVar sagittal) 0 mx_s
          (configure_scale (SliceVar axial) 0 mx_a children))) =
  Some (0, match p with axial => mx_a | sagittal => mx_s | coronal => mx_c end).
Proof.
  intros H.
  do 13 (destruct children as [ | [ | | | ? ? ?] children]; try discriminate H).
  cbn [map kind create_controls] in H.
  injection H as -> -> -> -> ->.
  destruct p; reflexivity.
Qed.

(** C10. When a file is chosen and the loader returns a volume of shape
    [(Nx, Ny, Nz)], then right after [load_nifti] the volume is installed,
    the sagittal slice variable is [(Nx - 1) // 2], the coronal one
    [(Ny - 1) // 2] and the axial one [(Nz - 1) // 2], and the scales
    bound to them run from 0 to [Nx - 1], to [Ny - 1] and to [Nz - 1]. *)
Theorem load_centres_cursor (s : BrainViewer) (chosen : string) (d : Np.ndarray)
    (nx ny nz : Z) :
  reachable s ->
  chosen <> EmptyString ->
  Np.shape d = (nx, ny, nz) ->
  let s' := after (load_nifti chosen (inr d)) s in
  data s' = Some d /\
  slice_controls s' =
    {| at_axial := (nz - 1) / 2;
       at_sagittal := (nx - 1) / 2;
       at_coronal := (ny - 1) / 2 |} /\
  scale_range (SliceVar sagittal) (control_frame s') = Some (0, nx - 1) /\
  scale_range (SliceVar coronal) (control_frame s') = Some (0, ny - 1) /\
  scale_range (SliceVar axial) (control_frame s') = Some (0, nz - 1).
Proof.
  intros Hreach Hchosen Hshape s'. subst s'.
  destruct (dim_of_shape _ _ _ _ Hshape) as (H0 & H1 & H2).
  destruct chosen as [ | c name]; [ contradiction | ].
  rewrite load_nifti_after.
  rewrite (initialize_plots_keeps data), (initialize_plots_keeps slice_controls),
    (initialize_plots_keeps control_frame) by reflexivity.
  cbn [centred control_frame slice_controls data set_control_frame
       set_slice_entries set_slice_controls set_data set_filename dim_index].
  rewrite !scale_range_centred by (apply (reachable_layout s Hreach)).
  rewrite H0, H1, H2. repeat split.
Qed.

Lemma load_centres_cursor_witness :
  let s' := after (load_nifti "brain.nii" (inr (blank 10 20 30))) init in
  data s' = Some (blank 10 20 30) /\
  slice_controls s' = {| at_axial := 14; at_sagittal := 4; at_coronal := 9 |} /\
  scale_range (SliceVar sagittal) (control_frame s') = Some (0, 9) /\
  scale_range (SliceVar coronal) (control_frame s') = Some (0, 19) /\
  scale_range (SliceVar axial) (control_frame s') = Some (0, 29).
Proof.
  apply (load_centres_cursor init "brain.nii" (blank 10 20 30) 10 20 30 reachable_init).
  - discriminate.
  - reflexivity.
Defined.

(** ** The redraw *)

Lemma index_in_range n i : 0 <= i < n -> Np.index n i = inr i.
Proof.
  intros H. unfold Np.index.
  destruct (Z.leb_spec 0 i); [ | lia ]. destruct (Z.ltb_spec i n); [ | lia ].
  reflexivity.
Qed.

Lemma view_slices_in_range s d cursor :
  in_range d cursor ->
  view_slices d cursor.[sagittal] cursor.[coronal] cursor.[axial] s
  = (inr (shown d cursor), s).
Proof.
  intros Hin.
  pose proof (Hin axial) as Hz. pose proof (Hin sagittal) as Hx.
  pose proof (Hin coronal) as Hy. cbn [dim_index] in Hx, Hy, Hz.
  unfold view_slices, Np.slice_z, Np.slice_x, Np.slice_y, bind, lift, ret.
  rewrite !index_in_range by assumption. reflexivity.
Qed.

Lemma update_image_data_eq s d mn mx :
  data s = Some d ->
  Np.amin d = inr mn ->
  Np.amax d = inr mx ->
  in_range d (slice_controls s) ->
  (forall v, (image_plots s).[v] <> None) ->
  let dp := computeRange mn mx (brightness_var s) (contrast_var s) in
  let sl := shown d (slice_controls s) in
  update_image_data s =
  (inr tt,
   set_image_plots
     {| at_axial := Some (mk_image sl.[axial] dp);
        at_sagittal := Some (mk_image sl.[sagittal] dp);
        at_coronal := Some (mk_image sl.[coronal] dp) |} s).
Proof.
  intros Hd Hmin Hmax Hin Hplots dp sl.
  pose proof (Hplots axial) as Ha. pose proof (Hplots sagittal) as Hs.
  pose proof (Hplots coronal) as Hc.
  unfold update_image_data.
  unfold bind at 1. unfold read at 1. rewrite Hd.
  unfold bind at 1.
  rewrite (get_slice_display_params_eq s d mn mx Hd Hmin Hmax).
  unfold bind at 1. unfold read at 1.
  unfold bind at 1. unfold read at 1.
  unfold bind at 1. unfold read at 1.
  unfold bind at 1.
  rewrite (view_slices_in_range s d (slice_controls s) Hin).
  fold dp. fold sl.
  unfold set_image, bind, read, modify.
  destruct s as [sd fn cf sc se bv cv mp mo [ia isg ic] cl tl].
  cbn in Ha, Hs, Hc |- *.
  destruct ia; [ | contradiction ]. destruct isg; [ | contradiction ].
  destruct ic; [ | contradiction ]. reflexivity.
Qed.


Lemma initialize_plots_eq s d mn mx :
  data s = Some d ->
  Np.amin d = inr mn ->
  Np.amax d = inr mx ->
  in_range d (slice_controls s) ->
  initialize_plots s =
  (inr tt, fresh_plots d (computeRange mn mx (brightness_var s) (contrast_var s)) s).
Proof.
  intros Hd Hmin Hmax Hin.
  unfold initialize_plots.
  unfold bind at 1. unfold read at 1. rewrite Hd.
  unfold bind at 1.
  rewrite (get_slice_display_params_eq s d mn mx Hd Hmin Hmax).
  unfold bind at 1. unfold read at 1.
  unfold bind at 1. unfold read at 1.
  unfold bind at 1. unfold read at 1.
  unfold bind at 1.
  rewrite (view_slices_in_range s d (slice_controls s) Hin).
  unfold new_plot, update_crosshairs, set_crosshair, bind, read, modify, fresh_plots.
  destruct s as [sd fn cf sc se bv cv mp mo ip cl tl].
  cbn in Hd |- *. rewrite Hd. reflexivity.
Qed.

Lemma middle_in_range d s :
  (forall p, 1 <= Np.dim d (dim_index p)) ->
  in_range d (slice_controls (centred d s)).
Proof.
  intros Hdims p. specialize (Hdims p).
  assert (H : (slice_controls (centred d s)).[p] = (Np.dim d (dim_index p) - 1) / 2)
    by (destruct p; reflexivity).
  rewrite H. split.
  - apply Z.div_pos; lia.
  - apply Z.div_lt_upper_bound; lia.
Qed.

Lemma nth_arange n i d : 0 <= i < n -> nth (Z.to_nat i) (Np.arange n) d = i.
Proof.
  intros H. unfold Np.arange.
  rewrite (nth_indep _ d (Z.of_nat 0)) by (rewrite length_map, length_seq; lia).
  rewrite map_nth, seq_nth by lia. lia.
Qed.

Lemma length_arange n : List.length (Np.arange n) = Z.to_nat n.
Proof. unfold Np.arange. rewrite length_map, length_seq. reflexivity. Qed.

Lemma nth_table_row {A} rows cols (f : Z -> Z -> A) i :
  0 <= i < rows ->
  nth (Z.to_nat i) (table rows cols f) [] = map (fun c => f i c) (Np.arange cols).
Proof.
  intros Hi. unfold table.
  rewrite (nth_indep _ [] ((fun r => map (fun c => f r c) (Np.arange cols)) 0))
    by (rewrite length_map, length_arange; lia).
  rewrite (map_nth (fun r => map (fun c => f r c) (Np.arange cols))).
  rewrite nth_arange by lia. reflexivity.
Qed.

Lemma nth_table {A} rows cols (f : Z -> Z -> A) i j d :
  0 <= i < rows -> 0 <= j < cols ->
  nth (Z.to_nat j) (nth (Z.to_nat i) (table rows cols f) []) d = f i j.
Proof.
  intros Hi Hj. rewrite nth_table_row by assumption.
  rewrite (nth_indep _ d ((fun c => f i c) 0))
    by (rewrite length_map, length_arange; lia).
  rewrite (map_nth (fun c => f i c)). rewrite nth_arange by lia. reflexivity.
Qed.

Lemma length_table {A} rows cols (f : Z -> Z -> A) :
  List.length (table rows cols f) = Z.to_nat rows.
Proof. unfold table. rewrite length_map, length_arange. reflexivity. Qed.

(** Row [r] of [np.rot90(m)] is column [cols - 1 - r] of [m]. *)
Lemma nth_rot90 cols (m : Np.array2) r :
  0 <= r < cols ->
  nth (Z.to_nat r) (Np.rot90 cols m) [] =
  map (fun row => nth (Z.to_nat (cols - 1 - r)) row 0%float) m.
Proof.
  intros Hr. unfold Np.rot90.
  rewrite rev_nth by (rewrite length_map, length_seq; lia).
  rewrite length_map, length_seq.
  set (g := fun j => map (fun row : list float => nth j row 0%float) m).
  rewrite (nth_indep _ [] (g O)) by (rewrite length_map, length_seq; lia).
  rewrite (map_nth g). rewrite seq_nth by lia.
  unfold g. f_equal. 
  replace (0 + (Z.to_nat cols - S (Z.to_nat r)))%nat with (Z.to_nat (cols - 1 - r)) by lia.
  reflexivity.
Qed.

Lemma length_rot90 cols m : List.length (Np.rot90 cols m) = Z.to_nat cols.
Proof. unfold Np.rot90. rewrite length_rev, length_map, length_seq. reflexivity. Qed.

Lemma pixel_flip_rot90 rows cols (f : Z -> Z -> float) r c :
  0 <= r < cols -> 0 <= c < rows ->
  pixel_at (Np.flip1 (Np.rot90 cols (table rows cols f))) r c =
  f (rows - 1 - c) (cols - 1 - r).
Proof.
  intros Hr Hc. unfold pixel_at, Np.flip1.
  rewrite (nth_indep _ [] (rev [])) by (rewrite length_map, length_rot90; lia).
  rewrite (map_nth (@rev float)).
  rewrite nth_rot90 by assumption.
  rewrite rev_nth by (rewrite length_map, length_table; lia).
  rewrite length_map, length_table.
  set (g := fun row : list float => nth (Z.to_nat (cols - 1 - r)) row 0%float).
  rewrite (nth_indep _ 0%float (g [])) by (rewrite length_map, length_table; lia).
  rewrite (map_nth g).
  replace (Z.to_nat rows - S (Z.to_nat c))%nat with (Z.to_nat (rows - 1 - c)) by lia.
  unfold g. apply nth_table; lia.
Qed.

Lemma size_flip_rot90 rows cols (f : Z -> Z -> float) :
  let m := Np.flip1 (Np.rot90 cols (table rows cols f)) in
  List.length m = Z.to_nat cols /\ forall row, In row m -> List.length row = Z.to_nat rows.
Proof.
  cbv zeta. unfold Np.flip1. split.
  - rewrite length_map, length_rot90. reflexivity.
  - intros row Hin. apply in_map_iff in Hin. destruct Hin as (row' & <- & Hin).
    rewrite length_rev. unfold Np.rot90 in Hin. apply in_rev in Hin.
    apply in_map_iff in Hin. destruct Hin as (j & <- & _).
    rewrite length_map, length_table. reflexivity.
Qed.










Lemma in_range_of_bounds d nx ny nz (cursor : by_plane Z) :
  Np.shape d = (nx, ny, nz) ->
  0 <= cursor.[sagittal] < nx ->
  0 <= cursor.[coronal] < ny ->
  0 <= cursor.[axial] < nz ->
  in_range d cursor.
Proof.
  intros Hshape Hx Hy Hz p.
  destruct (dim_of_shape _ _ _ _ Hshape) as (H0 & H1 & H2).
  destruct p; cbn [dim_index]; rewrite ?H0, ?H1, ?H2; assumption.
Qed.

(** What each view displays, for a cursor in range. The axial image has
    [Ny] rows of [Nx] pixels and its pixel in row [r], column [c] is the
    voxel [(Nx - 1 - c, Ny - 1 - r, z)]; the sagittal image has [Nz] rows
    of [Ny] pixels, the voxels [(x, Ny - 1 - c, Nz - 1 - r)]; the coronal
    image has [Nz] rows of [Nx] pixels, the voxels
    [(Nx - 1 - c, y, Nz - 1 - r)]. *)
Theorem displayed_pixel_is_voxel (s : BrainViewer) (d : Np.ndarray) (nx ny nz x y z : Z) :
  data s = Some d ->
  Np.shape d = (nx, ny, nz) ->
  Np.voxels d <> [] ->
  (forall v, (image_plots s).[v] <> None) ->
  slice_controls s = {| at_axial := z; at_sagittal := x; at_coronal := y |} ->
  0 <= x < nx -> 0 <= y < ny -> 0 <= z < nz ->
  exists a sg c,
    image_plots (after update_image_data s) =
      {| at_axial := Some a; at_sagittal := Some sg; at_coronal := Some c |} /\
    (List.length (pixels a) = Z.to_nat ny /\
     forall row col, 0 <= row < ny -> 0 <= col < nx ->
       pixel_at (pixels a) row col = Np.item d (nx - 1 - col) (ny - 1 - row) z) /\
    (List.length (pixels sg) = Z.to_nat nz /\
     forall row col, 0 <= row < nz -> 0 <= col < ny ->
       pixel_at (pixels sg) row col = Np.item d x (ny - 1 - col) (nz - 1 - row)) /\
    (List.length (pixels c) = Z.to_nat nz /\
     forall row col, 0 <= row < nz -> 0 <= col < nx ->
       pixel_at (pixels c) row col = Np.item d (nx - 1 - col) y (nz - 1 - row)).
Proof.
  intros Hd Hshape Hne Hplots Hcursor Hx Hy Hz.
  destruct (amin_amax_defined d Hne) as (mn & mx & Hmin & Hmax & _ & _).
  assert (Hin : in_range d (slice_controls s))
    by (apply (in_range_of_bounds d nx ny nz); rewrite ?Hcursor; assumption).
  destruct (dim_of_shape _ _ _ _ Hshape) as (H0 & H1 & H2).
  unfold after. rewrite (update_image_data_eq s d mn mx Hd Hmin Hmax Hin Hplots).
  cbn [snd]. rewrite Hcursor.
  do 3 eexists. split; [ reflexivity | ].
  cbn [pixels shown lookup at_axial at_sagittal at_coronal].
  rewrite H0, H1, H2.
  repeat split.
  - apply (size_flip_rot90 nx ny).
  - intros row col Hr Hc.
    apply (pixel_flip_rot90 nx ny (fun i j => Np.item d i j z)); assumption.
  - apply (size_flip_rot90 ny nz).
  - intros row col Hr Hc.
    apply (pixel_flip_rot90 ny nz (fun j k => Np.item d x j k)); assumption.
  - apply (size_flip_rot90 nx nz).
  - intros row col Hr Hc.
    apply (pixel_flip_rot90 nx nz (fun i k => Np.item d i y k)); assumption.
Qed.

Lemma displayed_pixel_is_voxel_witness :
  exists a sg c,
    image_plots (after update_image_data opened_2_3_4) =
      {| at_axial := Some a; at_sagittal := Some sg; at_coronal := Some c |} /\
    (List.length (pixels a) = Z.to_nat 3 /\
     forall row col, 0 <= row < 3 -> 0 <= col < 2 ->
       pixel_at (pixels a) row col = Np.item numbered_2_3_4 (2 - 1 - col) (3 - 1 - row) 1) /\
    (List.length (pixels sg) = Z.to_nat 4 /\
     forall row col, 0 <= row < 4 -> 0 <= col < 3 ->
       pixel_at (pixels sg) row col = Np.item numbered_2_3_4 0 (3 - 1 - col) (4 - 1 - row)) /\
    (List.length (pixels c) = Z.to_nat 4 /\
     forall row col, 0 <= row < 4 -> 0 <= col < 2 ->
       pixel_at (pixels c) row col = Np.item numbered_2_3_4 (2 - 1 - col) 1 (4 - 1 - row)).
Proof.
  assert (Hd : data opened_2_3_4 = Some numbered_2_3_4) by (vm_compute; reflexivity).
  assert (Hne : Np.voxels numbered_2_3_4 <> []) by (vm_compute; discriminate).
  assert (Hp : forall v, (image_plots opened_2_3_4).[v] <> None)
    by (intros v; destruct v; vm_compute; discriminate).
  assert (Hc : slice_controls opened_2_3_4 =
               {| at_axial := 1; at_sagittal := 0; at_coronal := 1 |})
    by (vm_compute; reflexivity).
  assert (Hx : 0 <= 0 < 2) by lia.
  assert (Hy : 0 <= 1 < 3) by lia.
  assert (Hz : 0 <= 1 < 4) by lia.
  exact (displayed_pixel_is_voxel opened_2_3_4 numbered_2_3_4 2 3 4 0 1 1
           Hd eq_refl Hne Hp Hc Hx Hy Hz).
Defined.



(** ** Redrawing twice *)

(** Two viewers that differ in the image plots and the crosshair lines
    at most. *)
Lemma same_but_plots s s' :
  data s' = data s -> filename s' = filename s ->
  control_frame s' = control_frame s -> slice_controls s' = slice_controls s ->
  slice_entries s' = slice_entries s -> brightness_var s' = brightness_var s ->
  contrast_var s' = contrast_var s -> mouse_pressed s' = mouse_pressed s ->
  mouse_over_axes s' = mouse_over_axes s -> temp_lines s' = temp_lines s ->
  s' = set_crosshair_lines (crosshair_lines s') (set_image_plots (image_plots s') s).
Proof.
  destruct s, s'. cbn. intros. subst. reflexivity.
Qed.

Lemma redraw_keeps {B} (f : BrainViewer -> B) :
  (forall v s, f (set_image_plots v s) = f s) ->
  (forall v s, f (set_crosshair_lines v s) = f s) ->
  keeps f (update_image_data ;;; update_crosshairs).
Proof.
  intros Hi Hc. apply keeps_bind.
  - apply update_image_data_keeps. exact Hi.
  - intros _. apply update_crosshairs_keeps. exact Hc.
Qed.

(** The redraw writes the image plots and the crosshair lines only. *)
Lemma redraw_touches_plots s :
  let s' := after (update_image_data ;;; update_crosshairs) s in
  s' = set_crosshair_lines (crosshair_lines s') (set_image_plots (image_plots s') s).
Proof.
  cbv zeta. apply same_but_plots; apply redraw_keeps; reflexivity.
Qed.

Lemma get_slice_display_params_pure s :
  get_slice_display_params s = (outcome get_slice_display_params s, s).
Proof.
  unfold get_slice_display_params, outcome, bind, read, lift, ret, raise.
  destruct (data s) as [d | ]; [ | reflexivity ].
  destruct (Np.amin d); [ reflexivity | ].
  destruct (Np.amax d); reflexivity.
Qed.

Lemma get_slice_display_params_frame s s' :
  data s' = data s -> brightness_var s' = brightness_var s ->
  contrast_var s' = contrast_var s ->
  outcome get_slice_display_params s' = outcome get_slice_display_params s.
Proof.
  unfold get_slice_display_params, outcome, bind, read, lift, ret, raise.
  intros -> -> ->.
  destruct (data s) as [d | ]; [ | reflexivity ].
  destruct (Np.amin d); [ reflexivity | ].
  destruct (Np.amax d); reflexivity.
Qed.

Lemma view_slices_pure d x y z s :
  view_slices d x y z s = (outcome (view_slices d x y z) init, s).
Proof.
  unfold view_slices, outcome, bind, lift, ret.
  destruct (Np.slice_z d z); [ reflexivity | ].
  destruct (Np.slice_x d x); [ reflexivity | ].
  destruct (Np.slice_y d y); reflexivity.
Qed.

(** The redraw, from the point where the display range and the slices
    are known. *)
Lemma redraw_form s :
  (update_image_data ;;; update_crosshairs) s =
  match data s with
  | None => (inr tt, s)
  | Some d =>
      match outcome get_slice_display_params s with
      | inl e => (inl e, s)
      | inr dp =>
          match outcome (view_slices d (slice_controls s).[sagittal]
                           (slice_controls s).[coronal] (slice_controls s).[axial]) init with
          | inl e => (inl e, s)
          | inr sl =>
              ((set_image axial sl.[axial] dp ;;;
                set_image sagittal sl.[sagittal] dp ;;;
                set_image coronal sl.[coronal] dp) ;;;
               update_crosshairs) s
          end
      end
  end.
Proof.
  unfold bind at 1. unfold update_image_data at 1.
  unfold bind at 1. unfold read at 1.
  destruct (data s) as [d | ] eqn:Hd.
  - unfold bind at 1. rewrite get_slice_display_params_pure.
    destruct (outcome get_slice_display_params s) as [e | dp]; [ reflexivity | ].
    unfold bind at 1. unfold read at 1.
    unfold bind at 1. unfold read at 1.
    unfold bind at 1. unfold read at 1.
    unfold bind at 1. rewrite view_slices_pure.
    destruct (outcome (view_slices d _ _ _) init) as [e | sl]; [ reflexivity | ].
    unfold bind at 4. reflexivity.
  - unfold update_crosshairs, bind, read, ret. rewrite Hd. reflexivity.
Qed.

Lemma draw_twice s d (sl : by_plane Np.array2) dp :
  data s = Some d ->
  let m := (set_image axial sl.[axial] dp ;;;
            set_image sagittal sl.[sagittal] dp ;;;
            set_image coronal sl.[coronal] dp) ;;;
           update_crosshairs in
  m (after m s) = m s.
Proof.
  intros Hd m. subst m.
  unfold update_crosshairs, set_image, set_crosshair, after, bind, read, modify, raise, ret.
  destruct s as [sd fn cf sc se bv cv mp mo [ia isg ic] [la ls lc] tl].
  cbn [data] in Hd. subst sd.
  destruct ia, isg, ic, la, ls, lc; reflexivity.
Qed.

(** A second redraw ends as the first did and changes nothing more. *)
Lemma redraw_twice s :
  let redraw := update_image_data ;;; update_crosshairs in
  redraw (after redraw s) = (outcome redraw s, after redraw s).
Proof.
  cbv zeta.
  pose proof (redraw_keeps data (fun _ _ => eq_refl) (fun _ _ => eq_refl) s) as Kd.
  pose proof (redraw_keeps brightness_var (fun _ _ => eq_refl) (fun _ _ => eq_refl) s) as Kb.
  pose proof (redraw_keeps contrast_var (fun _ _ => eq_refl) (fun _ _ => eq_refl) s) as Kc.
  pose proof (redraw_keeps slice_controls (fun _ _ => eq_refl) (fun _ _ => eq_refl) s) as Ks.
  rewrite (redraw_form (after _ s)).
  rewrite Kd, Ks, (get_slice_display_params_frame s _ Kd Kb Kc).
  unfold outcome at 3, after. rewrite (redraw_form s).
  destruct (data s) as [d | ] eqn:Hd; [ | reflexivity ].
  destruct (outcome get_slice_display_params s) as [e | dp]; [ reflexivity | ].
  destruct (outcome (view_slices d _ _ _) init) as [e | sl]; [ reflexivity | ].
  pose proof (draw_twice s d sl dp Hd) as T. cbv zeta in T. unfold after in T.
  rewrite T. apply surjective_pairing.
Qed.

Lemma assign_twice {A} (t : by_plane A) p v : assign (assign t p v) p v = assign t p v.
Proof. destruct p; reflexivity. Qed.

(** What the slice scale of [p] does to the viewer: the variable and the
    entry are written, then the views are redrawn. *)
Lemma slide_slice_form s p value :
  dispatch (SlideSlice p value) s =
  match Py.int_of_float (scale_value (SliceVar p) value s) with
  | inl e => (inl e, s)
  | inr n =>
      (update_image_data ;;; update_crosshairs)
        (set_slice_entries (assign (slice_entries s) p (Py.str n))
           (set_slice_controls (assign (slice_controls s) p n) s))
  end.
Proof.
  unfold dispatch, on_slider_change, set_var, set_entry, bind, read, lift, modify.
  destruct (Py.int_of_float (scale_value (SliceVar p) value s)) as [e | n];
    reflexivity.
Qed.

(** Moving a slice scale to the position it already has changes nothing:
    the second callback leaves the viewer as the first left it. *)
Theorem slider_change_idempotent (s : BrainViewer) (p : plane) (value : float) :
  step (step s (SlideSlice p value)) (SlideSlice p value) = step s (SlideSlice p value).
Proof.
  unfold step at 1 2 3. unfold after. rewrite (slide_slice_form s).
  destruct (Py.int_of_float (scale_value (SliceVar p) value s)) as [e | n] eqn:Hn.
  - cbn [snd]. rewrite slide_slice_form, Hn. reflexivity.
  - set (s_a := set_slice_entries _ _).
    pose proof (redraw_touches_plots s_a) as E. cbv zeta in E.
    pose proof (redraw_twice s_a) as T. cbv zeta in T.
    unfold after in E, T.
    set (s1 := snd ((update_image_data ;;; update_crosshairs) s_a)) in *.
    rewrite slide_slice_form.
    assert (Hv : scale_value (SliceVar p) value s1 = scale_value (SliceVar p) value s)
      by (rewrite E; reflexivity).
    rewrite Hv, Hn.
    assert (Hb : set_slice_entries (assign (slice_entries s1) p (Py.str n))
                   (set_slice_controls (assign (slice_controls s1) p n) s1) = s1).
    { rewrite E. subst s_a.
      cbn [slice_entries slice_controls set_slice_entries set_slice_controls
           set_crosshair_lines set_image_plots data filename control_frame brightness_var
           contrast_var mouse_pressed mouse_over_axes image_plots crosshair_lines temp_lines].
      rewrite !assign_twice. reflexivity. }
    rewrite Hb, T. reflexivity.
Qed.

(** Moving the brightness or the contrast scale writes its variable and
    redraws: the volume, the cursor, the entries, the scales, the hover
    lines and the mouse state stay as they were. *)
Theorem display_scales_touch_plots_only (s : BrainViewer) (value : float) :
  (let s' := step s (SlideBrightness value) in
   s' = set_crosshair_lines (crosshair_lines s')
          (set_image_plots (image_plots s')
             (set_brightness_var (scale_value BrightnessVar value s) s))) /\
  (let s' := step s (SlideContrast value) in
   s' = set_crosshair_lines (crosshair_lines s')
          (set_image_plots (image_plots s')
             (set_contrast_var (scale_value ContrastVar value s) s))).
Proof.
  split; cbv zeta; unfold step, dispatch, update_display;
    rewrite after_bind; cbn [outcome after read fst snd];
    rewrite after_bind; cbn [outcome after modify fst snd];
    apply redraw_touches_plots.
Qed.

(** ** Opening a volume: failure and success *)

(** A cancelled dialog changes nothing; when the loader raises, the
    handler ends normally and only the file name has changed: the volume
    shown before, its cursor and its plots all stay. *)
Theorem load_failure_keeps_volume (s : BrainViewer) (chosen : string) (e : Py.exn) :
  (forall img, load_nifti EmptyString img s = (inr tt, s)) /\
  (chosen <> EmptyString ->
   load_nifti chosen (inl e) s = (inr tt, set_filename (Some chosen) s)).
Proof.
  split.
  - intros img. reflexivity.
  - intros Hc. destruct chosen as [ | c name]; [ contradiction | ]. reflexivity.
Qed.

Lemma load_failure_keeps_volume_witness :
  (forall img, load_nifti EmptyString img opened_10_20_30 = (inr tt, opened_10_20_30)) /\
  load_nifti "missing.nii" (inl Py.FileError) opened_10_20_30 =
    (inr tt, set_filename (Some "missing.nii"%string) opened_10_20_30).
Proof.
  destruct (load_failure_keeps_volume opened_10_20_30 "missing.nii" Py.FileError) as [H1 H2].
  split; [ exact H1 | apply H2; discriminate ].
Defined.

(** Opening a volume of shape [(Nx, Ny, Nz)] that has a voxel on every
    axis: the handler ends normally, the entries show the middle slices,
    every view has its image, its crosshair at the middle of the volume
    and its hover lines, which are hidden. *)
Theorem load_draws_centred_views (s : BrainViewer) (chosen : string) (d : Np.ndarray)
    (nx ny nz : Z) :
  chosen <> EmptyString ->
  Np.shape d = (nx, ny, nz) ->
  1 <= nx -> 1 <= ny -> 1 <= nz ->
  Np.voxels d <> [] ->
  let s' := after (load_nifti chosen (inr d)) s in
  filename s' = Some chosen /\
  slice_entries s' =
    {| at_axial := Py.str ((nz - 1) / 2);
       at_sagittal := Py.str ((nx - 1) / 2);
       at_coronal := Py.str ((ny - 1) / 2) |} /\
  plotted s' /\
  crosshair_pixel axial s' = Some ((nx - 1) / 2, ny - (ny - 1) / 2 - 1) /\
  crosshair_pixel sagittal s' = Some (ny - (ny - 1) / 2 - 1, (nz - 1) / 2) /\
  crosshair_pixel coronal s' = Some ((nx - 1) / 2, (nz - 1) / 2) /\
  forall v, exists l,
    (temp_lines s').[v] = Some l /\
    visible (vline l) = false /\ visible (hline l) = false.
Proof.
  intros Hchosen Hshape Hnx Hny Hnz Hne s'. subst s'.
  destruct (dim_of_shape _ _ _ _ Hshape) as (H0 & H1 & H2).
  destruct (amin_amax_defined d Hne) as (mn & mx & Hmin & Hmax & _ & _).
  destruct chosen as [ | c name]; [ contradiction | ].
  rewrite load_nifti_after.
  set (s0 := set_data (Some d) (set_filename (Some (String c name)) s)).
  assert (Hin : in_range d (slice_controls (centred d s0))).
  { apply middle_in_range. intros p. destruct p; cbn [dim_index]; lia. }
  unfold after.
  rewrite (initialize_plots_eq (centred d s0) d mn mx eq_refl Hmin Hmax Hin).
  cbn [snd]. unfold fresh_plots, crosshair_pixel, plotted.
  cbn [centred s0 filename slice_entries slice_controls temp_lines crosshair_lines
       image_plots set_crosshair_lines set_temp_lines set_image_plots set_control_frame
       set_slice_entries set_slice_controls set_data set_filename
       lookup at_axial at_sagittal at_coronal crosshair_of dim_index fst snd coord
       vline hline every].
  rewrite H0, H1, H2.
  repeat split; try (destruct v; cbn [lookup at_axial at_sagittal at_coronal]; discriminate).
  intros v. eexists. split; [ destruct v; reflexivity | split; reflexivity ].
Qed.

Lemma load_draws_centred_views_witness :
  let s' := after (load_nifti "brain.nii" (inr (blank 10 20 30))) init in
  filename s' = Some "brain.nii"%string /\
  slice_entries s' =
    {| at_axial := Py.str 14; at_sagittal := Py.str 4; at_coronal := Py.str 9 |} /\
  plotted s' /\
  crosshair_pixel axial s' = Some (4, 10) /\
  crosshair_pixel sagittal s' = Some (10, 14) /\
  crosshair_pixel coronal s' = Some (4, 14) /\
  forall v, exists l,
    (temp_lines s').[v] = Some l /\
    visible (vline l) = false /\ visible (hline l) = false.
Proof.
  assert (Hc : "brain.nii"%string <> EmptyString) by discriminate.
  assert (Hne : Np.voxels (blank 10 20 30) <> []) by (vm_compute; discriminate).
  assert (Hx : 1 <= 10) by lia.
  assert (Hy : 1 <= 20) by lia.
  assert (Hz : 1 <= 30) by lia.
  exact (load_draws_centred_views init "brain.nii" (blank 10 20 30) 10 20 30
           Hc eq_refl Hx Hy Hz Hne).
Defined.

(** ** Clipping an arbitrary pointer position *)

Lemma SFcompare_refl_valid (x : spec_float) :
  x <> S754_nan -> SFcompare x x = Some Eq.
Proof.
  destruct x as [s | s | | s m e]; intros H; try reflexivity.
  - destruct s; reflexivity.
  - contradiction.
  - apply SFcompare_finite_refl.
Qed.

Lemma is_nan_Prim2SF (a : float) :
  is_nan a = true <-> Prim2SF a = S754_nan.
Proof.
  unfold is_nan. rewrite FloatAxioms.eqb_spec. unfold SFeqb.
  split.
  - intros H. destruct (Prim2SF a) as [s | s | | s m e] eqn:E; try reflexivity;
      rewrite SFcompare_refl_valid in H by discriminate; discriminate.
  - intros ->. reflexivity.
Qed.

(** The mantissa of a binary64 float has at most 53 digits. *)
Lemma valid_mantissa_bound (s : bool) (m : positive) (e : Z) :
  valid_binary (S754_finite s m e) = true -> Zpos m < 2 ^ 53.
Proof.
  cbn [valid_binary]. unfold bounded, canonical_mantissa, fexp, prec.
  intros H. apply andb_prop in H. destruct H as [H _]. apply Z.eqb_eq in H.
  pose proof (digits2_pos_bounds m) as [_ Hhi].
  assert (Hd : Zpos (digits2_pos m) <= 53) by lia.
  assert (2 ^ Zpos (digits2_pos m) <= 2 ^ 53) by (apply Z.pow_le_mono_r; lia).
  lia.
Qed.

(** Truncating a positive float that compares below the float of [hi]
    gives an integer from 0 to [hi]. *)
Lemma trunc_below (m : positive) (e : Z) (mh : positive) :
  Zpos m < 2 ^ 53 ->
  Zpos mh < 2 ^ 53 ->
  SFltb (S754_finite false m e) (Prim2SF (Py.float_of_int (Zpos mh))) = true ->
  0 <= match e with
       | Z0 => Zpos m
       | Zpos _ => Zpos m * 2 ^ e
       | Zneg p => Zpos m / 2 ^ Zpos p
       end <= Zpos mh.
Proof.
  intros Hm Hh Hlt.
  destruct (Prim2SF_float_of_int_pos mh Hh) as (mz & Hz & Hmz).
  rewrite Hz in Hlt. unfold SFltb in Hlt. cbn [SFcompare] in Hlt.
  pose proof (digits2_pos_bounds mh) as [Hlo Hhi].
  pose proof (digits2_pos_le_53 mh Hh) as Hd.
  set (dh := Zpos (digits2_pos mh)) in *.
  assert (Hdh : 1 <= dh) by lia. clearbody dh.
  destruct (Z.compare_spec e (dh - 53)) as [He | He | He].
  - (* Same exponent: the mantissas decide. *)
    assert (Hmm : Zpos m < Zpos mz).
    { change (Pos.compare_cont Eq m mz) with (Zpos m ?= Zpos mz) in Hlt.
      destruct (Z.compare_spec (Zpos m) (Zpos mz)); try discriminate. assumption. }
    subst e.
    destruct (dh - 53) as [ | p | p] eqn:Hk; try lia.
    + replace (53 - dh) with 0 in Hmz by lia. change (2 ^ 0) with 1 in Hmz. lia.
    + replace (53 - dh) with (Zpos p) in Hmz by lia.
      assert (Hp : 0 < 2 ^ Zpos p) by (apply Z.pow_pos_nonneg; lia).
      split.
      * apply Z.div_pos; lia.
      * apply Z.div_le_upper_bound; [ lia | ]. lia.
  - (* A smaller exponent. *)
    destruct e as [ | p | p].
    + assert (2 ^ 53 <= 2 ^ (dh - 1)) by (apply Z.pow_le_mono_r; lia). lia.
    + assert (2 ^ 53 <= 2 ^ (dh - 1)) by (apply Z.pow_le_mono_r; lia). lia.
    + assert (Hp : 0 < 2 ^ Zpos p) by (apply Z.pow_pos_nonneg; lia).
      split.
      * apply Z.div_pos; lia.
      * apply Z.div_le_upper_bound; [ lia | ].
        assert (2 ^ 53 <= 2 ^ (Zpos p + (dh - 1))) by (apply Z.pow_le_mono_r; lia).
        rewrite Z.pow_add_r in * by lia. nia.
  - discriminate.
Qed.

(** [int(np.clip(a, 0, hi))] for any float [a]: a [nan] raises
    [ValueError], everything else gives an integer from 0 to [hi]. *)
Lemma int_of_clip (a : float) (hi : Z) :
  0 <= hi < 2 ^ 53 ->
  (is_nan a = true /\ Py.int_of_float (Np.clip a 0 hi) = inl Py.ValueError) \/
  (is_nan a = false /\
   exists n, Py.int_of_float (Np.clip a 0 hi) = inr n /\ 0 <= n <= hi).
Proof.
  intros Hhi. unfold Np.clip.
  destruct (is_nan a) eqn:Hn.
  - left. split; [ reflexivity | ]. rewrite Hn.
    unfold Py.int_of_float. rewrite (proj1 (is_nan_Prim2SF a) Hn). reflexivity.
  - right. split; [ reflexivity | ].
    destruct (Py.float_of_int 0 <? a)%float eqn:Hpos.
    + rewrite Hn.
      destruct (a <? Py.float_of_int hi)%float eqn:Hlt.
      * rewrite FloatAxioms.ltb_spec in Hpos, Hlt.
        pose proof (Prim2SF_valid a) as Hv.
        unfold Py.int_of_float.
        destruct (Prim2SF a) as [s | s | | s m e] eqn:Ea.
        -- rewrite Prim2SF_float_of_int_0 in Hpos. discriminate.
        -- exfalso. destruct hi as [ | mh | mh]; [ | | lia ].
           ++ rewrite Prim2SF_float_of_int_0 in Hlt. destruct s; discriminate.
           ++ destruct (Prim2SF_float_of_int_pos mh) as (mz & Hz & _); [ lia | ].
              rewrite Hz in Hlt. rewrite Prim2SF_float_of_int_0 in Hpos.
              destruct s; discriminate.
        -- discriminate.
        -- rewrite Prim2SF_float_of_int_0 in Hpos.
           destruct s; [ discriminate | ].
           destruct hi as [ | mh | mh]; [ | | lia ].
           ++ rewrite Prim2SF_float_of_int_0 in Hlt. discriminate.
           ++ eexists. split; [ reflexivity | ].
              apply trunc_below; [ apply (valid_mantissa_bound false m e Hv) | lia | exact Hlt ].
      * exists hi. split; [ apply int_of_float_of_int; lia | lia ].
    + rewrite is_nan_float_of_int by lia.
      rewrite (ltb_float_of_int 0 hi) by lia.
      destruct (Z.ltb_spec 0 hi).
      * exists 0. split; [ apply int_of_float_of_int; lia | lia ].
      * exists hi. split; [ apply int_of_float_of_int; lia | lia ].
Qed.

(** ** The cursor of a volume with [Nx <= Ny <= Nz] *)

(** Only [load_nifti] writes the volume and the scales. *)
Lemma dispatch_keeps_data i :
  (forall chosen img, i <> SelectFile chosen img) -> keeps data (dispatch i).
Proof.
  intros Hi.
  destruct i; try (exfalso; eapply Hi; reflexivity);
    unfold dispatch, on_slider_change, on_entry_change, on_click, on_motion, on_release,
      on_axes_enter, on_axes_leave, update_display, update_cursor_position,
      set_var, set_entry;
    frame;
    first [ apply update_image_data_keeps; reflexivity
          | apply update_crosshairs_keeps; reflexivity
          | apply update_temp_crosshairs_keeps; reflexivity ].
Qed.

Lemma dispatch_keeps_control_frame i :
  (forall chosen img, i <> SelectFile chosen img) -> keeps control_frame (dispatch i).
Proof.
  intros Hi.
  destruct i; try (exfalso; eapply Hi; reflexivity);
    unfold dispatch, on_slider_change, on_entry_change, on_click, on_motion, on_release,
      on_axes_enter, on_axes_leave, update_display, update_cursor_position,
      set_var, set_entry;
    frame;
    first [ apply update_image_data_keeps; reflexivity
          | apply update_crosshairs_keeps; reflexivity
          | apply update_temp_crosshairs_keeps; reflexivity ].
Qed.

Lemma within_assign nx ny nz cursor p n :
  within nx ny nz cursor ->
  0 <= n < match p with sagittal => nx | coronal => ny | axial => nz end ->
  within nx ny nz (assign cursor p n).
Proof.
  unfold within. destruct cursor as [z x y], p;
    cbn [assign lookup at_axial at_sagittal at_coronal]; lia.
Qed.

Lemma slide_slice_cursor s p value :
  slice_controls (step s (SlideSlice p value)) =
  match Py.int_of_float (scale_value (SliceVar p) value s) with
  | inr n => assign (slice_controls s) p n
  | inl _ => slice_controls s
  end.
Proof.
  unfold step, after. rewrite slide_slice_form.
  destruct (Py.int_of_float _) as [e | n]; [ reflexivity | ].
  match goal with
  | |- context [snd (?r ?s0)] => change (snd (r s0)) with (after r s0)
  end.
  rewrite (redraw_keeps slice_controls) by reflexivity. reflexivity.
Qed.

Lemma on_entry_change_controls s p :
  slice_controls (after (on_entry_change p) s) =
  match Py.int_of_str (slice_entries s).[p] with
  | None => slice_controls s
  | Some v =>
      assign (slice_controls s) p
        match data s with
        | Some d => Z.max 0 (Z.min v (Np.dim d (dim_index p) - 1))
        | None => v
        end
  end.
Proof.
  unfold on_entry_change.
  rewrite (try_except_ValueError_observe slice_controls)
    by (unfold set_entry; frame).
  rewrite after_bind. cbn [outcome after read fst snd].
  destruct (Py.int_of_str _) as [v | ]; [ | reflexivity ].
  rewrite after_bind. cbn [outcome after read fst snd].
  rewrite after_bind. cbn [outcome set_var modify fst].
  assert (K : forall t, keeps slice_controls
                (set_entry p t ;;; update_image_data ;;; update_crosshairs))
    by (intros t; unfold set_entry; frame).
  rewrite K. reflexivity.
Qed.

Lemma pointer_cursor s d event i :
  data s = Some d ->
  i = ButtonPress event \/ i = MotionNotify event ->
  slice_controls (step s i) = slice_controls s \/
  exists view x y,
    inaxes event = Some view /\
    Py.int_of_float (Np.clip (xdata event) 0 (Np.dim d 0 - 1)) = inr x /\
    Py.int_of_float (Np.clip (ydata event) 0 (Np.dim d 1 - 1)) = inr y /\
    slice_controls (step s i) = clicked_cursor d view x y (slice_controls s).
Proof.
  intros Hd Hi. unfold step.
  destruct (inaxes event) as [view | ] eqn:Hv.
  - assert (Hu : forall s0, data s0 = Some d -> slice_controls s0 = slice_controls s ->
              slice_controls (after (update_cursor_position event) s0) = slice_controls s \/
              exists x y,
                Py.int_of_float (Np.clip (xdata event) 0 (Np.dim d 0 - 1)) = inr x /\
                Py.int_of_float (Np.clip (ydata event) 0 (Np.dim d 1 - 1)) = inr y /\
                slice_controls (after (update_cursor_position event) s0) =
                clicked_cursor d view x y (slice_controls s)).
    { intros s0 Hd0 Hc0.
      rewrite (update_cursor_position_cursor s0 d view event Hd0 Hv).
      destruct (Py.int_of_float (Np.clip (xdata event) _ _)) as [e | x] eqn:Hx;
        [ left; exact Hc0 | ].
      destruct (Py.int_of_float (Np.clip (ydata event) _ _)) as [e | y] eqn:Hy;
        [ left; exact Hc0 | ].
      right. exists x, y. rewrite Hc0. repeat split. }
    assert (Hs : slice_controls (after (dispatch i) s) = slice_controls s \/
                 exists x y,
                   Py.int_of_float (Np.clip (xdata event) 0 (Np.dim d 0 - 1)) = inr x /\
                   Py.int_of_float (Np.clip (ydata event) 0 (Np.dim d 1 - 1)) = inr y /\
                   slice_controls (after (dispatch i) s) =
                   clicked_cursor d view x y (slice_controls s)).
    { destruct Hi as [-> | ->]; cbn [dispatch].
      - rewrite (on_click_cursor s d view event Hd Hv).
        apply Hu; [ exact Hd | reflexivity ].
      - destruct (mouse_pressed s) eqn:Hp.
        + rewrite (on_motion_pressed s d view event Hd Hv Hp).
          apply Hu; [ exact Hd | reflexivity ].
        + left. apply hover_keeps_cursor, Hp. }
    destruct Hs as [Hs | (x & y & Hx & Hy & Hs)]; [ left; exact Hs | ].
    right. exists view, x, y. repeat split; assumption.
  - left. destruct Hi as [-> | ->]; cbn [dispatch]; unfold on_click, on_motion;
      rewrite after_bind; cbn [outcome after read fst snd]; rewrite Hv; reflexivity.
Qed.

Lemma clicked_cursor_within d nx ny nz view x y cursor :
  Np.shape d = (nx, ny, nz) ->
  nx <= ny -> ny <= nz ->
  0 <= x <= nx - 1 -> 0 <= y <= ny - 1 ->
  within nx ny nz cursor ->
  within nx ny nz (clicked_cursor d view x y cursor).
Proof.
  intros Hshape Hxy Hyz Hx Hy Hin.
  destruct (dim_of_shape _ _ _ _ Hshape) as (H0 & H1 & H2).
  unfold within, clicked_cursor in *. rewrite H1.
  destruct cursor as [cz cx cy], view;
    cbn [assign lookup at_axial at_sagittal at_coronal] in *; lia.
Qed.

Lemma dispatch_keeps_cursor_otherwise i :
  match i with
  | TypeEntry _ _ | SlideBrightness _ | SlideContrast _
  | ButtonRelease _ | AxesEnter _ | AxesLeave _ => keeps slice_controls (dispatch i)
  | _ => True
  end.
Proof.
  destruct i; try exact I;
    unfold dispatch, on_release, on_axes_enter, on_axes_leave, update_display, set_entry;
    frame.
Qed.

(** One input keeps the cursor within a volume whose shape the click
    bounds fit, and the scales on its axes. *)
Lemma tracks_volume_step s i :
  layout s = map kind create_controls ->
  tracks_volume s -> tracks_volume (step s i).
Proof.
  intros Hl Inv d nx ny nz Hd Hshape H1 Hxy Hyz Hz.
  destruct (dim_of_shape _ _ _ _ Hshape) as (H0 & Hd1 & Hd2).
  assert (Hload : forall chosen img, i = SelectFile chosen img ->
            within nx ny nz (slice_controls (step s i)) /\
            scale_range (SliceVar sagittal) (control_frame (step s i)) = Some (0, nx - 1) /\
            scale_range (SliceVar coronal) (control_frame (step s i)) = Some (0, ny - 1) /\
            scale_range (SliceVar axial) (control_frame (step s i)) = Some (0, nz - 1)).
  { intros chosen img ->. unfold step in *. cbn [dispatch] in *.
    destruct chosen as [ | c name]; [ exact (Inv d nx ny nz Hd Hshape H1 Hxy Hyz Hz) | ].
    destruct img as [e | d2]; [ exact (Inv d nx ny nz Hd Hshape H1 Hxy Hyz Hz) | ].
    rewrite load_nifti_after in *.
    rewrite (initialize_plots_keeps data) in Hd by reflexivity.
    rewrite (initialize_plots_keeps slice_controls),
      (initialize_plots_keeps control_frame) by reflexivity.
    cbn [centred data set_control_frame set_slice_entries set_slice_controls set_data
         set_filename] in Hd.
    injection Hd as ->.
    cbn [centred control_frame slice_controls set_control_frame set_slice_entries
         set_slice_controls set_data set_filename dim_index].
    rewrite !scale_range_centred by exact Hl.
    rewrite H0, Hd1, Hd2. unfold within.
    cbn [lookup at_axial at_sagittal at_coronal].
    repeat split; try (apply Z.div_pos; lia); apply Z.div_lt_upper_bound; lia. }
  destruct i as [chosen img | p value | p text | p | value | value | event | event
                 | event | event | event];
    try (apply (Hload chosen img eq_refl)); clear Hload;
    match goal with
    | |- context [step s ?i] =>
        assert (Hi : forall chosen img, i <> SelectFile chosen img) by discriminate;
        pose proof (dispatch_keeps_data i Hi s) as Kd;
        pose proof (dispatch_keeps_control_frame i Hi s) as Kf;
        pose proof (dispatch_keeps_cursor_otherwise i) as Kc;
        cbv iota in Kc
    end;
    unfold step in Hd |- *; rewrite Kd in Hd; rewrite Kf;
    destruct (Inv d nx ny nz Hd Hshape H1 Hxy Hyz Hz) as (Hin & Rx & Ry & Rz);
    (split; [ | auto ]);
    try (rewrite Kc; exact Hin).
  - (* a slice scale *)
    fold (step s (SlideSlice p value)). rewrite slide_slice_cursor.
    assert (Hv : exists hi, scale_value (SliceVar p) value s = Np.clip value 0 hi /\
                   0 <= hi < 2 ^ 53 /\
                   hi + 1 = match p with sagittal => nx | coronal => ny | axial => nz end).
    { unfold scale_value.
      destruct p; rewrite ?Rx, ?Ry, ?Rz;
        [ exists (nz - 1) | exists (nx - 1) | exists (ny - 1) ];
        (split; [ f_equal; lia | lia ]). }
    destruct Hv as (hi & -> & Hhi & Hp).
    destruct (int_of_clip value hi Hhi) as [(_ & ->) | (_ & n & -> & Hn)];
      [ exact Hin | ].
    apply within_assign; [ exact Hin | ]. rewrite <- Hp. lia.
  - (* an entry is committed *)
    cbn [dispatch]. rewrite on_entry_change_controls.
    destruct (Py.int_of_str _) as [v | ]; [ | exact Hin ].
    rewrite Hd. apply within_assign; [ exact Hin | ].
    destruct p; cbn [dim_index]; rewrite ?H0, ?Hd1, ?Hd2; lia.
  - (* a button press *)
    destruct (pointer_cursor s d event (ButtonPress event) Hd (or_introl eq_refl))
      as [E | (view & x & y & Hv & Hx & Hy & E)];
      unfold step in E; rewrite E; [ exact Hin | ].
    rewrite H0 in Hx. rewrite Hd1 in Hy.
    destruct (int_of_clip (xdata event) (nx - 1)) as [(_ & Ex) | (_ & x' & Ex & Bx)];
      [ lia | congruence | ].
    destruct (int_of_clip (ydata event) (ny - 1)) as [(_ & Ey) | (_ & y' & Ey & By)];
      [ lia | congruence | ].
    assert (x' = x) by congruence. assert (y' = y) by congruence. subst x' y'.
    apply (clicked_cursor_within d nx ny nz); assumption.
  - (* a pointer motion *)
    destruct (pointer_cursor s d event (MotionNotify event) Hd (or_intror eq_refl))
      as [E | (view & x & y & Hv & Hx & Hy & E)];
      unfold step in E; rewrite E; [ exact Hin | ].
    rewrite H0 in Hx. rewrite Hd1 in Hy.
    destruct (int_of_clip (xdata event) (nx - 1)) as [(_ & Ex) | (_ & x' & Ex & Bx)];
      [ lia | congruence | ].
    destruct (int_of_clip (ydata event) (ny - 1)) as [(_ & Ey) | (_ & y' & Ey & By)];
      [ lia | congruence | ].
    assert (x' = x) by congruence. assert (y' = y) by congruence. subst x' y'.
    apply (clicked_cursor_within d nx ny nz); assumption.
Qed.

Lemma reachable_run inputs s : reachable s -> reachable (run inputs s).
Proof.
  revert s. induction inputs as [ | i inputs IH]; intros s Hs.
  - exact Hs.
  - cbn [run fold_left]. apply IH. apply reachable_step, Hs.
Qed.

Lemma reachable_tracks_volume s : reachable s -> tracks_volume s.
Proof.
  induction 1 as [ | s i Hs IH].
  - intros d nx ny nz Hd. discriminate Hd.
  - apply tracks_volume_step; [ apply reachable_layout, Hs | exact IH ].
Qed.

(** The part of the safety invariant the code does keep. In a volume of
    shape [(Nx, Ny, Nz)] with [1 <= Nx <= Ny <= Nz], whatever the inputs
    since the viewer was started, every component of the cursor indexes
    its own axis: the clip bounds [shape[0] - 1] and [shape[1] - 1] of
    [update_cursor_position] are then no larger than the axes they are
    applied to. *)
Theorem cursor_within_fitting_volume (s : BrainViewer) (d : Np.ndarray) (nx ny nz : Z) :
  reachable s ->
  data s = Some d ->
  Np.shape d = (nx, ny, nz) ->
  1 <= nx -> nx <= ny -> ny <= nz -> nz <= 2 ^ 53 ->
  0 <= (slice_controls s).[sagittal] < nx /\
  0 <= (slice_controls s).[coronal] < ny /\
  0 <= (slice_controls s).[axial] < nz.
Proof.
  intros Hs Hd Hshape H1 Hxy Hyz Hz.
  exact (proj1 (reachable_tracks_volume s Hs d nx ny nz Hd Hshape H1 Hxy Hyz Hz)).
Qed.

Lemma cursor_within_fitting_volume_witness :
  let s := run [ButtonPress (event_at sagittal 16 25); ButtonPress (event_at coronal 3 25)]
             opened_10_20_30 in
  0 <= (slice_controls s).[sagittal] < 10 /\
  0 <= (slice_controls s).[coronal] < 20 /\
  0 <= (slice_controls s).[axial] < 30.
Proof.
  intros s.
  assert (Hs : reachable s)
    by (unfold s, opened_10_20_30; do 2 apply reachable_run; apply reachable_init).
  assert (Hd : data s = Some (blank 10 20 30)) by (vm_compute; reflexivity).
  assert (H1 : 1 <= 10) by lia.
  assert (Hxy : 10 <= 20) by lia.
  assert (Hyz : 20 <= 30) by lia.
  assert (Hz : 30 <= 2 ^ 53) by (vm_compute; discriminate).
  exact (cursor_within_fitting_volume s (blank 10 20 30) 10 20 30
           Hs Hd eq_refl H1 Hxy Hyz Hz).
Defined.

(** ** The plots of an opened volume *)


(** Outside [initialize_plots] a plot element is only ever replaced. *)
Lemma set_image_keeps_drawn view px dp : keeps drawn (set_image view px dp).
Proof.
  intros s. unfold set_image, after, bind, read, modify, raise, drawn.
  destruct s as [sd fn cf sc se bv cv mp mo [[ | ] [ | ] [ | ]] cl tl], view; reflexivity.
Qed.

Lemma set_crosshair_keeps_drawn view vx hy : keeps drawn (set_crosshair view vx hy).
Proof.
  intros s. unfold set_crosshair, after, bind, read, modify, raise, drawn.
  destruct s as [sd fn cf sc se bv cv mp mo ip [[ | ] [ | ] [ | ]] tl], view; reflexivity.
Qed.

Lemma hide_temp_keeps_drawn view : keeps drawn (hide_temp view).
Proof.
  intros s. unfold hide_temp, after, bind, read, modify, raise, drawn.
  destruct s as [sd fn cf sc se bv cv mp mo ip cl [[ | ] [ | ] [ | ]]], view; reflexivity.
Qed.

Lemma show_temp_keeps_drawn view x y : keeps drawn (show_temp view x y).
Proof.
  intros s. unfold show_temp, after, bind, read, modify, raise, drawn.
  destruct s as [sd fn cf sc se bv cv mp mo ip cl [[ | ] [ | ] [ | ]]], view; reflexivity.
Qed.

#[export] Hint Resolve set_image_keeps_drawn set_crosshair_keeps_drawn
  hide_temp_keeps_drawn show_temp_keeps_drawn : frame.








(** ** Entries and slice variables *)

Lemma redraw_keeps_position : keeps position (update_image_data ;;; update_crosshairs).
Proof. apply redraw_keeps; reflexivity. Qed.

Lemma entries_follow_position s s' :
  position s' = position s -> entries_follow s -> entries_follow s'.
Proof.
  unfold position, entries_follow. intros [= Hc He] H p. rewrite Hc, He. apply H.
Qed.

Lemma entries_follow_assign s s' p n :
  position s' = (assign (slice_controls s) p n, assign (slice_entries s) p (Py.str n)) ->
  entries_follow s -> entries_follow s'.
Proof.
  unfold position, entries_follow. intros [= Hc He] H q. rewrite Hc, He.
  specialize (H q).
  destruct (slice_controls s) as [cz cx cy], (slice_entries s) as [ez ex ey], p, q;
    cbn [assign lookup at_axial at_sagittal at_coronal] in *; congruence.
Qed.

Lemma slide_slice_position s p value :
  position (step s (SlideSlice p value)) =
  match Py.int_of_float (scale_value (SliceVar p) value s) with
  | inr n => (assign (slice_controls s) p n, assign (slice_entries s) p (Py.str n))
  | inl _ => position s
  end.
Proof.
  unfold step, after. rewrite slide_slice_form.
  destruct (Py.int_of_float _) as [e | n]; [ reflexivity | ].
  match goal with
  | |- context [snd (?r ?s0)] => change (snd (r s0)) with (after r s0)
  end.
  rewrite redraw_keeps_position. reflexivity.
Qed.

Lemma on_entry_change_position s p :
  exists n,
    position (after (on_entry_change p) s) =
    (assign (slice_controls s) p n, assign (slice_entries s) p (Py.str n)).
Proof.
  unfold on_entry_change, try_except_ValueError, after.
  unfold bind at 1. unfold read at 1.
  destruct (Py.int_of_str (slice_entries s).[p]) as [v | ].
  - unfold bind at 1. unfold read at 1.
    set (n := match data s with
              | Some d => Z.max 0 (Z.min v (Np.dim d (dim_index p) - 1))
              | None => v
              end).
    exists n.
    unfold bind at 1. unfold set_var at 1. unfold modify at 1.
    unfold bind at 1. unfold set_entry at 1. unfold modify at 1.
    set (s_a := set_slice_entries _ _).
    pose proof (redraw_keeps_position s_a) as K. unfold after in K.
    assert (Ha : position s_a =
                 (assign (slice_controls s) p n, assign (slice_entries s) p (Py.str n)))
      by reflexivity.
    destruct ((update_image_data ;;; update_crosshairs) s_a) as [[e | []] s1];
      cbn [snd] in K |- *.
    + assert (H1 : position s1 =
                   (assign (slice_controls s) p n, assign (slice_entries s) p (Py.str n)))
        by congruence.
      destruct e; try exact H1.
      unfold bind, read, set_entry, modify. cbn [snd].
      unfold position in *. injection H1 as Hc He.
      cbn [slice_controls slice_entries set_slice_entries]. rewrite Hc, He.
      f_equal.
      destruct (slice_controls s) as [cz cx cy], (slice_entries s) as [ez ex ey], p;
        reflexivity.
    + congruence.
  - exists ((slice_controls s).[p]).
    unfold raise, bind, read, set_entry, modify. cbn [snd].
    unfold position. cbn [slice_controls slice_entries set_slice_entries]. f_equal.
    destruct (slice_controls s) as [cz cx cy], p; reflexivity.
Qed.

Lemma entries_follow_assign2 s s' p n q m :
  position s' = (assign (assign (slice_controls s) p n) q m,
                 assign (assign (slice_entries s) p (Py.str n)) q (Py.str m)) ->
  entries_follow s -> entries_follow s'.
Proof.
  unfold position, entries_follow. intros [= Hc He] H r. rewrite Hc, He.
  specialize (H r).
  destruct (slice_controls s) as [cz cx cy], (slice_entries s) as [ez ex ey], p, q, r;
    cbn [assign lookup at_axial at_sagittal at_coronal] in *; congruence.
Qed.

Lemma update_cursor_position_position s event :
  position (after (update_cursor_position event) s) = position s \/
  exists p n q m,
    position (after (update_cursor_position event) s) =
    (assign (assign (slice_controls s) p n) q m,
     assign (assign (slice_entries s) p (Py.str n)) q (Py.str m)).
Proof.
  unfold update_cursor_position.
  rewrite after_bind. cbn [outcome after read fst snd].
  destruct (inaxes event) as [view | ]; [ | left; reflexivity ].
  destruct (data s) as [d | ]; [ | left; reflexivity ].
  rewrite after_bind. cbn [outcome after lift fst snd].
  destruct (Py.int_of_float (Np.clip (xdata event) 0 (Np.dim d 0 - 1))) as [e | x];
    [ left; reflexivity | ].
  rewrite after_bind. cbn [outcome after lift fst snd].
  destruct (Py.int_of_float (Np.clip (ydata event) 0 (Np.dim d 1 - 1))) as [e | y];
    [ left; reflexivity | ].
  right.
  pose proof redraw_keeps_position as K.
  remember (update_image_data ;;; update_crosshairs) as refresh.
  destruct view;
    [ exists sagittal, x, coronal, (Np.dim d 1 - y - 1)
    | exists coronal, (Np.dim d 1 - x - 1), axial, y
    | exists sagittal, x, axial, y ];
    unfold after, bind, modify, set_var, set_entry; simpl;
    match goal with
    | |- context [refresh ?s'] => change (snd (refresh s')) with (after refresh s')
    end;
    rewrite K; reflexivity.
Qed.

(** Every callback leaves the entries showing the slice variables, also
    when it raises part way; only typing into an entry makes the two
    differ, until the entry is committed. *)
Theorem entries_follow_variables (s : BrainViewer) (i : input) :
  entries_follow s ->
  (forall p text, i <> TypeEntry p text) ->
  entries_follow (step s i).
Proof.
  intros H Hi. unfold step.
  destruct i as [chosen img | p value | p text | p | value | value | event | event
                 | event | event | event]; cbn [dispatch].
  - destruct chosen as [ | c name]; [ exact H | ].
    destruct img as [e | d]; [ exact H | ].
    rewrite load_nifti_after.
    apply (entries_follow_position
             (centred d (set_data (Some d) (set_filename (Some (String c name)) s)))).
    + apply (initialize_plots_keeps position); reflexivity.
    + intros p. destruct p; reflexivity.
  - pose proof (slide_slice_position s p value) as E. unfold step in E.
    cbn [dispatch] in E.
    destruct (Py.int_of_float _) as [e | n].
    + exact (entries_follow_position s _ E H).
    + exact (entries_follow_assign s _ p n E H).
  - exfalso. exact (Hi p text eq_refl).
  - destruct (on_entry_change_position s p) as (n & E).
    exact (entries_follow_assign s _ p n E H).
  - apply (entries_follow_position s); [ | exact H ].
    rewrite after_bind. cbn [outcome after read fst snd].
    rewrite after_bind. cbn [outcome after modify fst snd].
    unfold update_display. rewrite redraw_keeps_position. reflexivity.
  - apply (entries_follow_position s); [ | exact H ].
    rewrite after_bind. cbn [outcome after read fst snd].
    rewrite after_bind. cbn [outcome after modify fst snd].
    unfold update_display. rewrite redraw_keeps_position. reflexivity.
  - unfold on_click. rewrite after_bind. cbn [outcome after read fst snd].
    destruct (inaxes event) as [view | ]; [ | exact H ].
    destruct (data s) as [d | ]; [ | exact H ].
    rewrite after_bind. cbn [outcome after modify fst snd].
    destruct (update_cursor_position_position (set_mouse_pressed true s) event)
      as [E | (p & n & q & m & E)].
    + exact (entries_follow_position s _ E H).
    + exact (entries_follow_assign2 s _ p n q m E H).
  - unfold on_motion. rewrite after_bind. cbn [outcome after read fst snd].
    destruct (inaxes event) as [view | ]; [ | exact H ].
    destruct (data s) as [d | ]; [ | exact H ].
    rewrite after_bind. cbn [outcome after read fst snd].
    destruct (mouse_pressed s).
    + destruct (update_cursor_position_position s event) as [E | (p & n & q & m & E)].
      * exact (entries_follow_position s _ E H).
      * exact (entries_follow_assign2 s _ p n q m E H).
    + apply (entries_follow_position s); [ | exact H ].
      apply (update_temp_crosshairs_keeps position); reflexivity.
  - exact H.
  - exact H.
  - apply (entries_follow_position s); [ | exact H ].
    unfold on_axes_leave. rewrite after_bind. cbn [outcome after modify fst snd].
    rewrite redraw_keeps_position. reflexivity.
Qed.

Lemma entries_follow_variables_witness :
  entries_follow (step opened_10_20_30 (ButtonPress (event_at sagittal 16 25))).
Proof.
  assert (H : entries_follow opened_10_20_30)
    by (intros p; destruct p; vm_compute; reflexivity).
  assert (Hi : forall p text, ButtonPress (event_at sagittal 16 25) <> TypeEntry p text)
    by discriminate.
  exact (entries_follow_variables opened_10_20_30 (ButtonPress (event_at sagittal 16 25))
           H Hi).
Defined.

(** ** Callbacks that end normally *)







